(** * ClickTester: execution engine, stress engine and EXPLAIN parsing

    A shallow embedding of
      - [internal/chclient]: [ExtractGranules], [ProjectionUsed] and the
        [Client] capability consumed by the runner;
      - [internal/tests]: [Task], [TestResult], [RunResult];
      - [internal/runner/runner.go]: [runOne] and [Run];
      - [internal/runner/stress.go]: outcome classification, percentiles
        and the shared offset counter of [RunStress].

    Strings are Stdlib strings (lists of bytes), Go [int]/[uint64] values
    are [Z], lists that the code updates by index use stdpp's list
    [insert]. *)

From Stdlib Require Import String Ascii ZArith Lia Sorting.Permutation Sorting.Sorted.
From stdpp Require Import base list strings gmap.

Local Open Scope string_scope.
Local Open Scope Z_scope.

(* ------------------------------------------------------------------ *)
(** ** Go errors *)

(** The errors a client call can return.  [context.Canceled] and
    [context.DeadlineExceeded] are sentinel values; [ErrText] is any other
    error value (driver, network, server); [ErrWrap] is an error built with
    [fmt.Errorf("...%w", inner)] and [ErrJoin] one that wraps several
    ([errors.Join], [Unwrap() []error]).  Each wrapper carries the whole
    text its [Error()] method returns. *)
Inductive goerr :=
| ErrCanceled
| ErrDeadlineExceeded
| ErrText (msg : string)
| ErrWrap (msg : string) (inner : goerr)
| ErrJoin (msg : string) (inner : list goerr).

(** The sentinels that [errors.Is] is asked about in [isContextCanceled]. *)
Inductive sentinel := Canceled | DeadlineExceeded.

(** [err.Error()]. *)
Definition Error (e : goerr) : string :=
  match e with
  | ErrCanceled => "context canceled"
  | ErrDeadlineExceeded => "context deadline exceeded"
  | ErrText msg => msg
  | ErrWrap msg _ => msg
  | ErrJoin msg _ => msg
  end.

(** [errors.Is(err, target)]: [err == target], or [errors.Is] on what
    [err] unwraps to (depth first over the [Unwrap] tree). *)
Fixpoint errors_Is (target : sentinel) (e : goerr) : bool :=
  match e with
  | ErrCanceled => match target with Canceled => true | _ => false end
  | ErrDeadlineExceeded => match target with DeadlineExceeded => true | _ => false end
  | ErrText _ => false
  | ErrWrap _ inner => errors_Is target inner
  | ErrJoin _ inner =>
      (fix any (l : list goerr) : bool :=
         match l with
         | [] => false
         | x :: l' => errors_Is target x || any l'
         end) inner
  end.

(* ------------------------------------------------------------------ *)
(** ** EXPLAIN parsing: [GranulesRegex] and [ExtractGranules] *)

Definition is_digit (c : ascii) : bool :=
  let n := nat_of_ascii c in (48 <=? n)%nat && (n <=? 57)%nat.

(** RE2's [\s]: [[\t\n\f\r ]]. *)
Definition is_space (c : ascii) : bool :=
  match nat_of_ascii c with
  | 9%nat | 10%nat | 12%nat | 13%nat | 32%nat => true
  | _ => false
  end.

(** Longest prefix of [s] whose bytes satisfy [p], and the rest. *)
Fixpoint span (p : ascii -> bool) (s : string) : string * string :=
  match s with
  | EmptyString => (EmptyString, EmptyString)
  | String c s' =>
      if p c then let '(a, b) := span p s' in (String c a, b)
      else (EmptyString, s)
  end.

Definition granules_lit : string := "Granules:".

(** A match of [`Granules:\s*(\d+)/(\d+)`] starting at the first byte of
    [s], as RE2 finds it (leftmost-first, greedy quantifiers): the
    submatch list [[whole; group1; group2]] and the text after the match.
    [\s*] can only stop before a digit, the first [\d+] only before the
    slash, and the second [\d+] is greedy, so the match is unique. *)
Definition match_at (s : string) : option (list string * string) :=
  if String.prefix granules_lit s then
    let s1 := substring (String.length granules_lit)
                        (String.length s - String.length granules_lit) s in
    let '(ws, s2) := span is_space s1 in
    let '(d1, s3) := span is_digit s2 in
    match d1, s3 with
    | EmptyString, _ => None
    | _, String "/" s4 =>
        let '(d2, s5) := span is_digit s4 in
        match d2 with
        | EmptyString => None
        | _ => Some ([String.append granules_lit
                        (String.append ws (String.append d1 (String "/" d2)));
                      d1; d2], s5)
        end
    | _, _ => None
    end
  else None.

(** [GranulesRegex.FindAllStringSubmatch(s, -1)]: successive
    non-overlapping leftmost matches, the search resuming after each
    match.  Every step consumes a byte, so [String.length s] steps
    suffice. *)
Fixpoint find_all (fuel : nat) (s : string) : list (list string) :=
  match fuel with
  | O => []
  | S f =>
      match s with
      | EmptyString => []
      | String _ s' =>
          match match_at s with
          | Some (m, rest) => m :: find_all f rest
          | None => find_all f s'
          end
      end
  end.

Definition FindAllStringSubmatch (s : string) : list (list string) :=
  find_all (String.length s) s.

Definition digit_value (c : ascii) : Z := Z.of_nat (nat_of_ascii c) - 48.

Fixpoint decimal_acc (acc : Z) (s : string) : Z :=
  match s with
  | EmptyString => acc
  | String c s' => decimal_acc (acc * 10 + digit_value c) s'
  end.

Definition MaxInt : Z := 2 ^ 63 - 1.

(** [fmt.Sscanf(s, "%d", &x)] on a string of decimal digits (all that the
    first group can hold): [strconv.ParseInt(s, 10, 64)], which fails with
    "value out of range" above [MaxInt]. *)
Definition Sscanf_d (s : string) : option Z :=
  match s with
  | EmptyString => None
  | _ => let v := decimal_acc 0 s in if v <=? MaxInt then Some v else None
  end.

(** [ExtractGranules] (chclient/client.go). *)
Definition ExtractGranules (explainText : string) : Z :=
  let matches := FindAllStringSubmatch explainText in
  match matches with
  | [] => 0
  | _ =>
      fold_left
        (fun (minVal : Z) (m : list string) =>
           if (length m <? 2)%nat then minVal
           else match Sscanf_d (nth 1 m "") with
                | Some x => if (minVal =? 0) || (x <? minVal) then x else minVal
                | None => minVal
                end)
        matches 0
  end.

(** [strings.ToLower] on ASCII text (the only text it is applied to here). *)
Definition lower_ascii (c : ascii) : ascii :=
  let n := nat_of_ascii c in
  if (65 <=? n)%nat && (n <=? 90)%nat then ascii_of_nat (n + 32) else c.

Fixpoint ToLower (s : string) : string :=
  match s with
  | EmptyString => EmptyString
  | String c s' => String (lower_ascii c) (ToLower s')
  end.

(** [strings.Contains]. *)
Fixpoint Contains (s sub : string) : bool :=
  String.prefix sub s ||
  match s with
  | EmptyString => false
  | String _ s' => Contains s' sub
  end.

(** [ProjectionUsed] (chclient). *)
Definition ProjectionUsed (explainText : string) : bool :=
  Contains (ToLower explainText) "projection".


(* ------------------------------------------------------------------ *)
(** ** Package [tests]: tasks and results *)

Definition TaskTypeStructure : string := "structure".
Definition TaskTypeQuery : string := "query".

Record TaskOpts := mkTaskOpts { CollectExplain : bool; CollectStats : bool }.

Module Task.
(** [tests.Task]; [Type_] is the Go field [Type] (a keyword in Rocq),
    of the string type [TaskType]. *)
Record t := mk {
  ID : Z;
  Name : string;
  Description : string;
  Type_ : string;
  Query : string;
  Opts : TaskOpts
}.
End Task.

Record PartitionInfo := mkPartitionInfo {
  Partition : string; PRows : Z; PBytes : Z
}.

Module TestResult.
(** [tests.TestResult] with all the fields of the report layer; the
    fields [runOne] never writes keep Go's zero value. *)
Record t := mk {
  TaskID : Z;
  Name : string;
  Description : string;
  Type_ : string;
  Query : string;
  Pass : bool;
  Error : string;
  Granules : Z;
  ReadRows : Z;
  ReadBytes : Z;
  MemoryUsage : Z;
  QueryID : string;
  Partitions : list string;
  PartitionDetails : list PartitionInfo;
  DurationMs : Z;
  RowsReturned : Z;
  ProjectionUsed : bool;
  ExplainText : string
}.

(** The zero value [tests.TestResult{}]. *)
Definition zero : t :=
  mk 0 "" "" "" "" false "" 0 0 0 0 "" [] [] 0 0 false "".

(** Assignments [tr.F = v] to the fields [runOne] writes. *)
Definition set_Pass (v : bool) (r : t) : t :=
  mk r.(TaskID) r.(Name) r.(Description) r.(Type_) r.(Query) v r.(Error)
     r.(Granules) r.(ReadRows) r.(ReadBytes) r.(MemoryUsage) r.(QueryID)
     r.(Partitions) r.(PartitionDetails) r.(DurationMs) r.(RowsReturned)
     r.(ProjectionUsed) r.(ExplainText).
Definition set_Error (v : string) (r : t) : t :=
  mk r.(TaskID) r.(Name) r.(Description) r.(Type_) r.(Query) r.(Pass) v
     r.(Granules) r.(ReadRows) r.(ReadBytes) r.(MemoryUsage) r.(QueryID)
     r.(Partitions) r.(PartitionDetails) r.(DurationMs) r.(RowsReturned)
     r.(ProjectionUsed) r.(ExplainText).
Definition set_Granules (v : Z) (r : t) : t :=
  mk r.(TaskID) r.(Name) r.(Description) r.(Type_) r.(Query) r.(Pass) r.(Error)
     v r.(ReadRows) r.(ReadBytes) r.(MemoryUsage) r.(QueryID)
     r.(Partitions) r.(PartitionDetails) r.(DurationMs) r.(RowsReturned)
     r.(ProjectionUsed) r.(ExplainText).
Definition set_ReadRows (v : Z) (r : t) : t :=
  mk r.(TaskID) r.(Name) r.(Description) r.(Type_) r.(Query) r.(Pass) r.(Error)
     r.(Granules) v r.(ReadBytes) r.(MemoryUsage) r.(QueryID)
     r.(Partitions) r.(PartitionDetails) r.(DurationMs) r.(RowsReturned)
     r.(ProjectionUsed) r.(ExplainText).
Definition set_ReadBytes (v : Z) (r : t) : t :=
  mk r.(TaskID) r.(Name) r.(Description) r.(Type_) r.(Query) r.(Pass) r.(Error)
     r.(Granules) r.(ReadRows) v r.(MemoryUsage) r.(QueryID)
     r.(Partitions) r.(PartitionDetails) r.(DurationMs) r.(RowsReturned)
     r.(ProjectionUsed) r.(ExplainText).
Definition set_DurationMs (v : Z) (r : t) : t :=
  mk r.(TaskID) r.(Name) r.(Description) r.(Type_) r.(Query) r.(Pass) r.(Error)
     r.(Granules) r.(ReadRows) r.(ReadBytes) r.(MemoryUsage) r.(QueryID)
     r.(Partitions) r.(PartitionDetails) v r.(RowsReturned)
     r.(ProjectionUsed) r.(ExplainText).
Definition set_RowsReturned (v : Z) (r : t) : t :=
  mk r.(TaskID) r.(Name) r.(Description) r.(Type_) r.(Query) r.(Pass) r.(Error)
     r.(Granules) r.(ReadRows) r.(ReadBytes) r.(MemoryUsage) r.(QueryID)
     r.(Partitions) r.(PartitionDetails) r.(DurationMs) v
     r.(ProjectionUsed) r.(ExplainText).
Definition set_ExplainText (v : string) (r : t) : t :=
  mk r.(TaskID) r.(Name) r.(Description) r.(Type_) r.(Query) r.(Pass) r.(Error)
     r.(Granules) r.(ReadRows) r.(ReadBytes) r.(MemoryUsage) r.(QueryID)
     r.(Partitions) r.(PartitionDetails) r.(DurationMs) r.(RowsReturned)
     r.(ProjectionUsed) v.
End TestResult.

Record RunResult := mkRunResult {
  Total : Z; Passed : Z; Failed : Z; Results : list TestResult.t
}.

(* ------------------------------------------------------------------ *)
(** ** The [Client] capability *)

(** What the shared client answers to the calls made while one task runs:
    [Query] returns [(rows, readRows, readBytes, err)] and [Explain]
    returns [(explainText, err)], as in the [Client] interface that
    runner.go calls.  The context the call runs under (the caller's
    context, narrowed by the per-task [queryTimeout]) only shows in what
    the client returns, so it is part of this answer: a call cut by the
    deadline answers [Some ErrDeadlineExceeded] or an error wrapping it. *)
Record Client := mkClient {
  CQuery : string -> Z * Z * Z * option goerr;
  CExplain : string -> string * option goerr
}.

(** The calls [runOne] issues, in order. *)
Inductive Call := CallQuery (q : string) | CallExplain (q : string).

(* ------------------------------------------------------------------ *)
(** ** [runOne] and [Run] (runner.go) *)

Definition err_nil (err : option goerr) : bool :=
  match err with None => true | Some _ => false end.

(** [runOne]: the result of one task and the client calls it made.
    [elapsedMs] is what [time.Since(start).Seconds() * 1000] reads around
    the data query. *)
Definition runOne (t : Task.t) (client : Client) (queryTimeout : Z)
    (elapsedMs : Z) : TestResult.t * list Call :=
  let tr := TestResult.mk t.(Task.ID) t.(Task.Name) t.(Task.Description)
              t.(Task.Type_) "" false "" 0 0 0 0 "" [] [] 0 0 false "" in
  if String.eqb t.(Task.Type_) TaskTypeStructure then
    let '(_, _, _, err) := client.(CQuery) t.(Task.Query) in
    let tr := TestResult.set_Pass (err_nil err) tr in
    let tr := match err with
              | Some e => TestResult.set_Error (Error e) tr
              | None => tr
              end in
    (tr, [CallQuery t.(Task.Query)])
  else if String.eqb t.(Task.Type_) TaskTypeQuery then
    (* [inl tr]: the early [return tr]; [inr]: carry on. *)
    let explained :=
      if t.(Task.Opts).(CollectExplain) then
        match client.(CExplain) t.(Task.Query) with
        | (_, Some err) =>
            inl (TestResult.set_Error (String.append "EXPLAIN: " (Error err)) tr,
                 [CallExplain t.(Task.Query)])
        | (explainText, None) =>
            let tr := TestResult.set_ExplainText explainText tr in
            let tr := TestResult.set_Granules (ExtractGranules explainText) tr in
            inr (tr, [CallExplain t.(Task.Query)])
        end
      else inr (tr, []) in
    match explained with
    | inl done_ => done_
    | inr (tr, calls) =>
        let '(rows, readRows, readBytes, err) := client.(CQuery) t.(Task.Query) in
        let calls := app calls [CallQuery t.(Task.Query)] in
        let tr := TestResult.set_DurationMs elapsedMs tr in
        match err with
        | Some e => (TestResult.set_Error (Error e) tr, calls)
        | None =>
            let tr := TestResult.set_Pass true tr in
            let tr := TestResult.set_RowsReturned rows tr in
            let tr := TestResult.set_ReadRows readRows tr in
            let tr := TestResult.set_ReadBytes readBytes tr in
            (tr, calls)
        end
    end
  else (tr, []).

(** The loop [for item := range resultCh] of [Run], one received item. *)
Definition collect (result : RunResult) (item : nat * TestResult.t) : RunResult :=
  let '(idx, res) := item in
  let results := <[idx := res]> result.(Results) in
  if res.(TestResult.Pass)
  then mkRunResult result.(Total) (result.(Passed) + 1) result.(Failed) results
  else mkRunResult result.(Total) result.(Passed) (result.(Failed) + 1) results.

(** [Run].  The workers take the indices [0..n-1] from [taskCh], each
    index exactly once, and send [(i, runOne tasks[i])] on [resultCh];
    [sched] is the order in which the collecting loop receives them, any
    permutation of [0..n-1] (the hypothesis of the theorems below), which
    is all the worker count and the timing decide.  [client i] and
    [elapsed i] are the client's answers and the clock reading for the
    execution of task [i]. *)
Definition Run (tasks : list Task.t) (workers : Z) (client : nat -> Client)
    (queryTimeout : Z) (elapsed : nat -> Z) (sched : list nat) : RunResult :=
  let workers := if workers <? 1 then 1 else workers in
  match tasks with
  | [] => mkRunResult 0 0 0 []
  | _ =>
      let n := length tasks in
      let item (i : nat) : nat * TestResult.t :=
        (i, fst (runOne (nth i tasks (Task.mk 0 "" "" "" "" (mkTaskOpts false false)))
                        (client i) queryTimeout (elapsed i))) in
      fold_left collect (map item sched)
        (mkRunResult (Z.of_nat n) 0 0 (replicate n TestResult.zero))
  end.

(* ------------------------------------------------------------------ *)
(** ** [RunStress] (stress.go) *)

Definition timeOffsetPlaceholder : string := "$time_offset_ms$".

(** [isContextCanceled]. *)
Definition isContextCanceled (err : goerr) : bool :=
  errors_Is Canceled err || errors_Is DeadlineExceeded err.

(** What the collecting loop of [RunStress] has counted so far.  The
    latencies are the [float64] milliseconds of the successful calls; they
    are never NaN, so they are modelled as integers, ordered as the floats
    are. *)
Record StressAcc := mkStressAcc {
  total : Z; success : Z; failed : Z; cancelled : Z;
  latencies : list Z; errorSamples : list string
}.

Definition stress_acc0 : StressAcc := mkStressAcc 0 0 0 0 [] [].

(** One iteration of [for r := range resultCh]: [r] is
    [(durationMs, err)], [err = None] for a nil error. *)
Definition receive (acc : StressAcc) (r : Z * option goerr) : StressAcc :=
  let '(durationMs, err) := r in
  let '(mkStressAcc total success failed cancelled latencies errorSamples) := acc in
  let total := total + 1 in
  match err with
  | Some e =>
      if isContextCanceled e then
        mkStressAcc total success failed (cancelled + 1) latencies errorSamples
      else
        let errorSamples :=
          if (length errorSamples <? 5)%nat
          then app errorSamples [Error e] else errorSamples in
        mkStressAcc total success (failed + 1) cancelled latencies errorSamples
  | None =>
      mkStressAcc total (success + 1) failed cancelled (app latencies [durationMs])
        errorSamples
  end.

(** Ascending insertion sort: [sort.Float64s] (on a total order the
    sorted permutation is unique, so any correct sort gives the same
    list). *)
Fixpoint insert_sorted (x : Z) (l : list Z) : list Z :=
  match l with
  | [] => [x]
  | y :: l' => if x <=? y then x :: l else y :: insert_sorted x l'
  end.

Fixpoint sort_Float64s (l : list Z) : list Z :=
  match l with
  | [] => []
  | x :: l' => insert_sorted x (sort_Float64s l')
  end.

(** [percentile]; [sorted[idx]] is in range whenever [n = len(sorted)]. *)
Definition percentile (sorted : list Z) (n p : Z) : Z :=
  if n =? 0 then 0
  else
    let idx := (n * p) / 100 in
    let idx := if idx >=? n then n - 1 else idx in
    nth (Z.to_nat idx) sorted 0.

(** The fields of [StressResult] that do not come from the wall clock
    ([DurationSec] and [QPS] are readings of [time.Since]). *)
Record StressResult := mkStressResult {
  STotal : Z; SSuccess : Z; SFailed : Z; SCancelled : Z;
  LatencyP50Ms : Z; LatencyP95Ms : Z; LatencyP99Ms : Z;
  ErrorSamples : list string
}.

(** The end of [RunStress]: the outcomes [stream] in the order the loop
    receives them, reduced to the result. *)
Definition stress_result (stream : list (Z * option goerr)) : StressResult :=
  let acc := fold_left receive stream stress_acc0 in
  let latencies := acc.(latencies) in
  if (0 <? length latencies)%nat then
    let sorted := sort_Float64s latencies in
    let n := Z.of_nat (length sorted) in
    mkStressResult acc.(total) acc.(success) acc.(failed) acc.(cancelled)
      (percentile sorted n 50) (percentile sorted n 95) (percentile sorted n 99)
      acc.(errorSamples)
  else
    mkStressResult acc.(total) acc.(success) acc.(failed) acc.(cancelled)
      0 0 0 acc.(errorSamples).

(** [strconv.FormatUint(v, 10)] for [0 <= v < 2^64] (at most 20 digits). *)
Fixpoint format_digits (fuel : nat) (v : Z) (acc : string) : string :=
  match fuel with
  | O => acc
  | S f =>
      let acc := String (ascii_of_nat (48 + Z.to_nat (v mod 10))) acc in
      if v <? 10 then acc else format_digits f (v / 10) acc
  end.

Definition FormatUint (v : Z) : string := format_digits 20 v "".

(** [strings.ReplaceAll(s, old, new)] for a non-empty [old]: the
    non-overlapping occurrences, left to right. *)
Fixpoint replace_all (fuel : nat) (s old new : string) : string :=
  match fuel with
  | O => s
  | S f =>
      match s with
      | EmptyString => EmptyString
      | String c s' =>
          if String.prefix old s
          then String.append new
                 (replace_all f (substring (String.length old)
                                   (String.length s - String.length old) s) old new)
          else String c (replace_all f s' old new)
      end
  end.

Definition ReplaceAll (s old new : string) : string :=
  replace_all (S (String.length s)) s old new.

(** The query template after the check at the top of [RunStress]. *)
Definition stress_base (baseQuery : string) : string :=
  if Contains baseQuery timeOffsetPlaceholder then baseQuery
  else String.append baseQuery " -- no $time_offset_ms$".

Definition Uint64Mod : Z := 2 ^ 64.

(** The state the stress workers share: the [uint64] [counter], and the
    calls drawn so far in the order of their atomic increments, each with
    the worker, the offset it drew and the query text it sends. *)
Record StressState := mkStressState {
  counter : Z;
  issued : list (nat * Z * string)
}.

Definition stress_init : StressState := mkStressState 0 [].

(** The part of a worker's iteration that reads or writes shared state:
    [offset := atomic.AddUint64(&counter, 1)] (it wraps at [2^64]) and
    [q := strings.ReplaceAll(baseQuery, ph, strconv.FormatUint(offset, 10))].
    The cancellation check, the client call and the send on [resultCh]
    touch neither. *)
Definition draw (baseQuery : string) (w : nat) (st : StressState) : StressState :=
  let offset := (st.(counter) + 1) mod Uint64Mod in
  let q := ReplaceAll (stress_base baseQuery) timeOffsetPlaceholder (FormatUint offset) in
  mkStressState offset (app st.(issued) [(w, offset, q)]).

(** Any interleaving of the [workers] goroutines. *)
Inductive stress_reach (baseQuery : string) (workers : nat) : StressState -> Prop :=
| reach_init : stress_reach baseQuery workers stress_init
| reach_draw w st :
    (w < workers)%nat ->
    stress_reach baseQuery workers st ->
    stress_reach baseQuery workers (draw baseQuery w st).

Definition offset_of (e : nat * Z * string) : Z := let '(_, off, _) := e in off.
Definition query_of (e : nat * Z * string) : string := let '(_, _, q) := e in q.

(** [k] iterations of worker 0. *)
Fixpoint draws (baseQuery : string) (k : nat) : StressState :=
  match k with
  | O => stress_init
  | S k' => draw baseQuery 0 (draws baseQuery k')
  end.

(** Outcomes of the calls of a stress run, as the claims count them. *)
Definition is_success (err : option goerr) : bool := err_nil err.
Definition is_cancelled (err : option goerr) : bool :=
  match err with Some e => isContextCanceled e | None => false end.
Definition is_failed (err : option goerr) : bool :=
  match err with Some e => negb (isContextCanceled e) | None => false end.

Definition count_calls (f : option goerr -> bool) (stream : list (Z * option goerr)) : Z :=
  Z.of_nat (length (List.filter (fun r => f (snd r)) stream)).

(** The latencies of the successful calls, in the order received. *)
Definition success_latencies (stream : list (Z * option goerr)) : list Z :=
  map fst (List.filter (fun r => is_success (snd r)) stream).

(** Results whose [Pass] is [b]. *)
Fixpoint count_pass (b : bool) (l : list TestResult.t) : Z :=
  match l with
  | [] => 0
  | r :: l' => (if Bool.eqb r.(TestResult.Pass) b then 1 else 0) + count_pass b l'
  end.

Definition slots_fill (f : nat -> TestResult.t) (l : list nat)
    (rs : list TestResult.t) : list TestResult.t :=
  fold_left (fun rs i => <[i := f i]> rs) l rs.

Definition Task_zero : Task.t := Task.mk 0 "" "" "" "" (mkTaskOpts false false).

(* ------------------------------------------------------------------ *)
(** ** Package [config] (config.go, buildtasks.go) *)

Module Config.
(** The fields of the configuration that the modelled functions read.
    [TimeOffsetMs] is the parameter [substituteQueryParams] reads. *)
Record ClickHouse := mkClickHouse {
  Host : string; Port : Z; Database : string; User : string;
  Password : string; TableName : string; Secure : bool
}.

Record TestParams := mkTestParams {
  ProjectCode : string; AppName : string; Namespace : string;
  Level : string; TextToken : string; TimeOffsetMs : Z
}.

Record Execution := mkExecution { Workers : Z; QueryTimeoutSec : Z }.

Record Thresholds := mkThresholds {
  GranulesWarn : Z; GranulesFail : Z; ReadRowsWarn : Z
}.

(** [Thresholds_] is the Go field [Thresholds] (the name is the type's). *)
Record Report := mkReport { OutputPath : string; Thresholds_ : Thresholds }.
End Config.

Module StructureCheck.
Record t := mk { Name : string; Type_ : string; Description : string }.
End StructureCheck.

Module QueryTemplate.
Record t := mk {
  Name : string; Description : string; Query : string;
  CollectExplain : bool; CollectStats : bool
}.
End QueryTemplate.

(** [config.Config]; the fields named after their types carry a [_]. *)
Record Config := mkConfig {
  ClickHouse_ : Config.ClickHouse;
  TestParams_ : Config.TestParams;
  Execution_ : Config.Execution;
  Report_ : Config.Report;
  StructureChecks : list StructureCheck.t;
  QueryTemplates : list QueryTemplate.t
}.

(** [validate]: the first missing field is the error; a zero port becomes
    9000 (before the last check, on the config it was given). *)
Definition validate (c : Config) : Config * option goerr :=
  if String.eqb c.(ClickHouse_).(Config.Host) "" then
    (c, Some (ErrText "clickhouse.host is required"))
  else if String.eqb c.(ClickHouse_).(Config.Database) "" then
    (c, Some (ErrText "clickhouse.database is required"))
  else
    let ch := c.(ClickHouse_) in
    let ch := if ch.(Config.Port) =? 0
              then Config.mkClickHouse ch.(Config.Host) 9000 ch.(Config.Database)
                     ch.(Config.User) ch.(Config.Password) ch.(Config.TableName)
                     ch.(Config.Secure)
              else ch in
    let c := mkConfig ch c.(TestParams_) c.(Execution_) c.(Report_)
               c.(StructureChecks) c.(QueryTemplates) in
    if (length c.(StructureChecks) =? 0)%nat && (length c.(QueryTemplates) =? 0)%nat
    then (c, Some (ErrText "at least one structure_checks or query_templates entry is required"))
    else (c, None).

(** [setDefaults]. *)
Definition setDefaults (c : Config) : Config :=
  let ex := c.(Execution_) in
  let ex := if ex.(Config.Workers) <=? 0
            then Config.mkExecution 1 ex.(Config.QueryTimeoutSec) else ex in
  let rp := c.(Report_) in
  let rp := if String.eqb rp.(Config.OutputPath) ""
            then Config.mkReport "reports/report.html" rp.(Config.Thresholds_) else rp in
  mkConfig c.(ClickHouse_) c.(TestParams_) ex rp c.(StructureChecks) c.(QueryTemplates).

(** [Load] after [yaml.Unmarshal] has produced [c]. *)
Definition load_parsed (c : Config) : Config + goerr :=
  let '(c, err) := validate c in
  match err with
  | Some e => inr e
  | None => inl (setDefaults c)
  end.

(** [strings.ReplaceAll] for a one-byte [old], byte by byte. *)
Fixpoint replace_char (o : ascii) (new s : string) : string :=
  match s with
  | EmptyString => EmptyString
  | String c s' =>
      if ascii_dec o c then String.append new (replace_char o new s')
      else String c (replace_char o new s')
  end.

(** [escapeSingleQuotes]. *)
Definition escapeSingleQuotes (s : string) : string := ReplaceAll s "'" "\'".

(** The bytes space, tab, newline, carriage return, double quote, single
    quote, backquote and semicolon: the set [escapeIdentifier] checks. *)
Definition identifier_specials : list ascii :=
  map ascii_of_nat [32; 9; 10; 13; 34; 39; 96; 59]%nat.

(** [strings.ContainsAny(s, chars)] for ASCII [chars]. *)
Fixpoint ContainsAny (s : string) (chars : list ascii) : bool :=
  match s with
  | EmptyString => false
  | String c s' => existsb (fun d => if ascii_dec c d then true else false) chars
                   || ContainsAny s' chars
  end.

(** [escapeIdentifier]. *)
Definition escapeIdentifier (s : string) : string :=
  if String.eqb s "" || ContainsAny s identifier_specials
  then String.append "`" (String.append (ReplaceAll s "`" "``") "`")
  else s.

(** [structureQuery]: the SQL of a structure check, or its error. *)
Definition structureQuery (checkType database table : string) : string + goerr :=
  if String.eqb checkType "partitions" then
    inl (String.append "SELECT partition, sum(rows) AS rows, sum(bytes_on_disk) AS bytes FROM system.parts WHERE database = '"
        (String.append (escapeSingleQuotes database)
        (String.append "' AND table = '"
        (String.append (escapeSingleQuotes table)
         "' AND active GROUP BY partition ORDER BY partition"))))
  else if String.eqb checkType "indexes" then
    inl (String.append "SELECT name, type, expr, granularity FROM system.data_skipping_indices WHERE database = '"
        (String.append (escapeSingleQuotes database)
        (String.append "' AND table = '"
        (String.append (escapeSingleQuotes table) "'"))))
  else if String.eqb checkType "projections" then
    inl (String.append "SELECT name, partition, part_type, rows FROM system.projection_parts WHERE database = '"
        (String.append (escapeSingleQuotes database)
        (String.append "' AND table = '"
        (String.append (escapeSingleQuotes table) "'"))))
  else if String.eqb checkType "granules_settings" then
    inl (String.append "SHOW CREATE TABLE "
        (String.append (escapeIdentifier database)
        (String.append "." (escapeIdentifier table))))
  else inr (ErrText (String.append "unknown structure check type: " checkType)).

(** [structureDescription] (UTF-8 bytes of the Go literals). *)
Definition structureDescription (checkType : string) : string :=
  if String.eqb checkType "partitions" then "Проверка наличия и списка партиций таблицы (system.parts)."
  else if String.eqb checkType "indexes" then "Проверка наличия data skipping индексов и их типов (bloom_filter, tokenbf_v1)."
  else if String.eqb checkType "projections" then "Проверка наличия проекций (например counter_with_dims)."
  else if String.eqb checkType "granules_settings" then "Проверка настроек гранул (SHOW CREATE TABLE)."
  else "".

(** [strconv.Itoa]. *)
Definition Itoa (v : Z) : string :=
  if v <? 0 then String "-" (FormatUint (- v)) else FormatUint v.

(** The map [repl] of [substituteQueryParams], as its list of entries. *)
Definition repl_entries (fullTable : string) (p : Config.TestParams)
    (includeTimeOffset : bool) : list (string * string) :=
  app [("$table_name$", fullTable); ("$projectCode$", p.(Config.ProjectCode));
       ("$appName$", p.(Config.AppName)); ("$namespace$", p.(Config.Namespace));
       ("$level$", p.(Config.Level)); ("$text_token$", p.(Config.TextToken))]
      (if includeTimeOffset
       then [("$time_offset_ms$", Itoa p.(Config.TimeOffsetMs))] else []).

(** [substituteQueryParams].  Go ranges over the map [repl] in an
    unspecified order: [visit] is that order, a permutation of the entry
    indices. *)
Definition substituteQueryParams (visit : list nat) (query fullTable : string)
    (p : Config.TestParams) (includeTimeOffset : bool) : string :=
  let repl := repl_entries fullTable p includeTimeOffset in
  fold_left (fun s i => match nth_error repl i with
                        | Some (k, v) => ReplaceAll s k v
                        | None => s
                        end) visit query.

Definition SubstituteQueryParams (visit : list nat) (query fullTable : string)
    (p : Config.TestParams) : string :=
  substituteQueryParams visit query fullTable p true.

Definition SubstituteQueryParamsForStress (visit : list nat) (query fullTable : string)
    (p : Config.TestParams) : string :=
  substituteQueryParams visit query fullTable p false.

(** The structure-check loop of [BuildTasks]: tasks from id [id] on, or
    the failing check's name and the [structureQuery] error (the error is
    [fmt.Errorf("structure check %q: %w", name, err)]). *)
Fixpoint build_structure_tasks (db table : string) (scs : list StructureCheck.t)
    (id : Z) : list Task.t + (string * goerr) :=
  match scs with
  | [] => inl []
  | sc :: scs' =>
      match structureQuery sc.(StructureCheck.Type_) db table with
      | inr err => inr (sc.(StructureCheck.Name), err)
      | inl q =>
          let desc := if String.eqb sc.(StructureCheck.Description) ""
                      then structureDescription sc.(StructureCheck.Type_)
                      else sc.(StructureCheck.Description) in
          match build_structure_tasks db table scs' (id + 1) with
          | inr e => inr e
          | inl rest =>
              inl (Task.mk id sc.(StructureCheck.Name) desc TaskTypeStructure q
                     (mkTaskOpts false false) :: rest)
          end
      end
  end.

(** The query-template loop of [BuildTasks]. *)
Fixpoint build_query_tasks (visit : list nat) (fullTable : string) (p : Config.TestParams)
    (qts : list QueryTemplate.t) (id : Z) : list Task.t :=
  match qts with
  | [] => []
  | qt :: qts' =>
      Task.mk id qt.(QueryTemplate.Name) qt.(QueryTemplate.Description) TaskTypeQuery
        (SubstituteQueryParams visit qt.(QueryTemplate.Query) fullTable p)
        (mkTaskOpts qt.(QueryTemplate.CollectExplain) qt.(QueryTemplate.CollectStats))
      :: build_query_tasks visit fullTable p qts' (id + 1)
  end.

(** [BuildTasks]; [visit] is the map order of every [SubstituteQueryParams]
    call (the claims below hold for each order). *)
Definition BuildTasks (visit : list nat) (cfg : Config) : list Task.t + (string * goerr) :=
  let db := cfg.(ClickHouse_).(Config.Database) in
  let table := cfg.(ClickHouse_).(Config.TableName) in
  let fullTable := String.append db (String.append "." table) in
  match build_structure_tasks db table cfg.(StructureChecks) 1 with
  | inr e => inr e
  | inl out =>
      inl (app out (build_query_tasks visit fullTable cfg.(TestParams_) cfg.(QueryTemplates)
                      (1 + Z.of_nat (length cfg.(StructureChecks)))))
  end.

(** [StressQueryByName]: the first template named [queryName], or the
    name for the error [query template %q not found]. *)
Definition StressQueryByName (visit : list nat) (cfg : Config) (queryName : string)
    : string + string :=
  let fullTable := String.append cfg.(ClickHouse_).(Config.Database)
                     (String.append "." cfg.(ClickHouse_).(Config.TableName)) in
  match List.find (fun qt => String.eqb qt.(QueryTemplate.Name) queryName) cfg.(QueryTemplates) with
  | Some qt => inl (SubstituteQueryParamsForStress visit qt.(QueryTemplate.Query) fullTable
                      cfg.(TestParams_))
  | None => inr queryName
  end.

(* ------------------------------------------------------------------ *)
(** ** Package [report] (html.go) *)

Module ReportMeta.
Record t := mk {
  GeneratedAt : string; Host : string; Database : string; Table : string;
  Workers : Z; GranulesWarn : Z; GranulesFail : Z; ReadRowsWarn : Z
}.
End ReportMeta.

(** [int(v)] for a [uint64] [v] on a 64-bit platform. *)
Definition int_of_uint64 (v : Z) : Z := if v <? 2 ^ 63 then v else v - 2 ^ 64.

(** [rowStatus]. *)
Definition rowStatus (res : TestResult.t) (meta : ReportMeta.t) : string :=
  if negb res.(TestResult.Pass) then "fail"
  else if (0 <? meta.(ReportMeta.GranulesFail)) &&
          (meta.(ReportMeta.GranulesFail) <=? res.(TestResult.Granules)) then "fail"
  else if ((0 <? meta.(ReportMeta.GranulesWarn)) &&
           (meta.(ReportMeta.GranulesWarn) <=? res.(TestResult.Granules))) ||
          ((0 <? meta.(ReportMeta.ReadRowsWarn)) &&
           (meta.(ReportMeta.ReadRowsWarn) <=? int_of_uint64 res.(TestResult.ReadRows)))
       then "warn"
  else "ok".

(** The [Status] column of the rows [WriteHTML] renders: a nil [meta] is
    replaced by one that only carries the clock reading [now]. *)
Definition row_statuses (now : string) (r : RunResult) (meta : option ReportMeta.t)
    : list string :=
  let meta := match meta with
              | Some m => m
              | None => ReportMeta.mk now "" "" "" 0 0 0 0
              end in
  map (fun res => rowStatus res meta) r.(Results).

(* ------------------------------------------------------------------ *)
(** ** [main] (cmd/clicktester/main.go) *)

(** [strings.HasSuffix]. *)
Definition HasSuffix (s suffix : string) : bool :=
  (String.length suffix <=? String.length s)%nat &&
  String.eqb (substring (String.length s - String.length suffix) (String.length suffix) s)
             suffix.

(** The JSON report path [main] derives from the HTML one.  [ToLower] is
    the byte-wise ASCII lower-casing above; Go's [strings.ToLower] also
    maps non-ASCII runes, but none of them to a byte of [.html] (it maps
    invalid bytes to U+FFFD), so the suffix test is the same. *)
Definition json_path (outPath : string) : string :=
  if HasSuffix (ToLower outPath) ".html"
  then String.append (substring 0 (String.length outPath - 5) outPath) ".json"
  else String.append outPath ".json".

(* ------------------------------------------------------------------ *)
(** ** [/api/run] (server/server.go) *)

(** The tasks the handler runs for the request's [TaskIDs]. *)
Definition select_tasks (taskList : list Task.t) (taskIDs : list Z) : list Task.t :=
  match taskIDs with
  | [] => taskList
  | _ =>
      let idSet : gmap Z bool := fold_left (fun m id => <[id := true]> m) taskIDs ∅ in
      List.filter (fun t => default false (idSet !! t.(Task.ID))) taskList
  end.

(** The [RunResult] the handler encodes ([runner.Run] never fails). *)
Definition api_run (taskList : list Task.t) (taskIDs : list Z) (workers : Z)
    (client : nat -> Client) (queryTimeout : Z) (elapsed : nat -> Z) (sched : list nat)
    : RunResult :=
  match select_tasks taskList taskIDs with
  | [] => mkRunResult 0 0 0 []
  | tasksToRun => Run tasksToRun workers client queryTimeout elapsed sched
  end.

(* ------------------------------------------------------------------ *)
(** ** Readings of the outputs, used in the statements below *)

(** The severity order of the [Status] values. *)
Definition status_rank (s : string) : Z :=
  if String.eqb s "fail" then 2 else if String.eqb s "warn" then 1 else 0.

(** How many rows carry status [s]. *)
Definition count_status (s : string) (l : list string) : Z :=
  Z.of_nat (length (List.filter (String.eqb s) l)).

(** [meta] with its read-rows threshold switched off. *)
Definition without_ReadRowsWarn (meta : ReportMeta.t) : ReportMeta.t :=
  ReportMeta.mk meta.(ReportMeta.GeneratedAt) meta.(ReportMeta.Host)
    meta.(ReportMeta.Database) meta.(ReportMeta.Table) meta.(ReportMeta.Workers)
    meta.(ReportMeta.GranulesWarn) meta.(ReportMeta.GranulesFail) 0.

(** A reader of the backquoted identifiers [escapeIdentifier] writes: a
    leading backquote opens a quoted name, which ends with the last byte,
    and [``] inside it stands for one backquote. *)
Fixpoint unquote_ticks (s : string) : string :=
  match s with
  | String "`" (String "`" r) => String "`" (unquote_ticks r)
  | String c r => String c (unquote_ticks r)
  | EmptyString => EmptyString
  end.

Fixpoint drop_last (s : string) : string :=
  match s with
  | String _ EmptyString => EmptyString
  | String c r => String c (drop_last r)
  | EmptyString => EmptyString
  end.

Definition unescapeIdentifier (e : string) : string :=
  match e with
  | String "`" r => unquote_ticks (drop_last r)
  | _ => e
  end.


(** The check types [structureQuery] has a query for. *)
Definition structure_check_types : list string :=
  ["partitions"; "indexes"; "projections"; "granules_settings"].

(** The description [BuildTasks] gives a structure task. *)
Definition structure_task_description (sc : StructureCheck.t) : string :=
  if String.eqb sc.(StructureCheck.Description) ""
  then structureDescription sc.(StructureCheck.Type_)
  else sc.(StructureCheck.Description).

(** The messages of the failed (not cancelled) calls, in the order
    received. *)
Definition failure_messages (stream : list (Z * option goerr)) : list string :=
  map (fun r => match snd r with Some e => Error e | None => "" end)
      (List.filter (fun r => is_failed (snd r)) stream).

(** The first-group values of the [Granules:] matches, a failed parse
    read as 0. *)
Definition granule_values (explainText : string) : list Z :=
  map (fun m => match Sscanf_d (nth 1 m "") with Some x => x | None => 0 end)
      (FindAllStringSubmatch explainText).

(* ------------------------------------------------------------------ *)
(** ** Concrete inputs *)

Definition sample_explain : string :=
  "ReadFromMergeTree (Projection: p_by_day)  Granules: 3/120".

Definition sample_err : goerr := ErrText "code: 62, message: Syntax error".

Definition sample_task (id : Z) (ty : string) : Task.t :=
  Task.mk id "q" "d" ty "SELECT 1" (mkTaskOpts true false).

Definition sample_tasks : list Task.t :=
  [sample_task 1 TaskTypeQuery; sample_task 2 TaskTypeStructure].

Definition unknown_tasks : list Task.t := [sample_task 1 "ddl"].

(** Every call succeeds. *)
Definition ok_client : Client :=
  mkClient (fun _ => (5, 1000, 64000, None)) (fun _ => (sample_explain, None)).

(** EXPLAIN fails. *)
Definition explain_err_client : Client :=
  mkClient (fun _ => (5, 1000, 64000, None)) (fun _ => ("", Some sample_err)).

(** EXPLAIN succeeds, the data query runs into the deadline. *)
Definition query_err_client : Client :=
  mkClient (fun _ => (0, 0, 0, Some ErrDeadlineExceeded)) (fun _ => (sample_explain, None)).

(** A passed query result: 3 granules, 1000 rows read. *)
Definition sample_result : TestResult.t :=
  fst (runOne (sample_task 1 TaskTypeQuery) ok_client 0 7).

Definition sample_meta (gw gf rw : Z) : ReportMeta.t :=
  ReportMeta.mk "2026-01-01 10:00:00" "localhost" "logs_db" "app_logs" 4 gw gf rw.

Definition sample_params : Config.TestParams :=
  Config.mkTestParams "p1" "billing" "prod" "ERROR" "timeout" 0.

Definition sample_config : Config :=
  mkConfig (Config.mkClickHouse "localhost" 0 "logs_db" "default" "" "app_logs" false)
    sample_params (Config.mkExecution 0 30)
    (Config.mkReport "" (Config.mkThresholds 100 1000 5000))
    [StructureCheck.mk "parts" "partitions" ""]
    [QueryTemplate.mk "by_level" "errors" "SELECT count() FROM $table_name$ WHERE level = '$level$'"
       true true].

(** One of the orders Go may range over the seven entries of [repl] in. *)
Definition sample_visit : list nat := [3; 0; 6; 1; 5; 2; 4]%nat.

Definition sample_built : list Task.t :=
  match BuildTasks sample_visit sample_config with inl out => out | inr _ => [] end.

Definition two_granules_explain : string :=
  "ReadFromMergeTree Granules: 40/500 Expression Granules: 12/500".

Definition stress_template : string := "SELECT count() WHERE ts < now() - $time_offset_ms$".

(* ------------------------------------------------------------------ *)
(** ** Facts about [Run] *)

Lemma count_pass_perm b (l1 l2 : list TestResult.t) :
  Permutation l1 l2 -> count_pass b l1 = count_pass b l2.
Proof. induction 1; simpl; lia. Qed.

Lemma count_pass_split (l : list TestResult.t) :
  count_pass true l + count_pass false l = Z.of_nat (length l).
Proof.
  induction l as [|r l IH]; simpl; [done|].
  destruct (TestResult.Pass r); simpl; lia.
Qed.

Lemma count_pass_nonneg b (l : list TestResult.t) : 0 <= count_pass b l.
Proof. induction l as [|r l IH]; simpl; [lia|]. destruct (Bool.eqb _ _); lia. Qed.

Lemma count_pass_In (r : TestResult.t) (l : list TestResult.t) :
  In r l -> 1 <= count_pass r.(TestResult.Pass) l.
Proof.
  induction l as [|r' l IH]; simpl; [done|]. intros [->|H].
  - rewrite Bool.eqb_reflx. pose proof (count_pass_nonneg (TestResult.Pass r) l). lia.
  - specialize (IH H). destruct (Bool.eqb _ _); lia.
Qed.

Lemma fold_collect (f : nat -> TestResult.t) (l : list nat) (r : RunResult) :
  fold_left collect (map (fun i => (i, f i)) l) r =
  mkRunResult r.(Total) (r.(Passed) + count_pass true (map f l))
              (r.(Failed) + count_pass false (map f l))
              (slots_fill f l r.(Results)).
Proof.
  revert r. induction l as [|i l IH]; intros [tot pa fa rs]; simpl.
  - f_equal; lia.
  - rewrite IH. unfold collect. simpl.
    destruct (TestResult.Pass (f i)) eqn:Hp; simpl; f_equal; lia.
Qed.

Lemma slots_fill_length f l rs : length (slots_fill f l rs) = length rs.
Proof.
  revert rs. induction l as [|i l IH]; intros rs; simpl; [done|].
  unfold slots_fill in *. simpl. rewrite IH. apply length_insert.
Qed.

Lemma slots_fill_lookup f (l : list nat) (rs : list TestResult.t) j :
  (forall i, i ∈ l -> (i < length rs)%nat) ->
  slots_fill f l rs !! j = if decide (j ∈ l) then Some (f j) else rs !! j.
Proof.
  revert rs. induction l as [|i l IH]; intros rs Hin; [done|].
  unfold slots_fill in *. cbn [fold_left]. rewrite IH.
  2:{ intros k Hk. rewrite length_insert. apply Hin. by apply elem_of_cons; right. }
  destruct (decide (j ∈ l)) as [Hj|Hj].
  - rewrite decide_True; [done|]. by apply elem_of_cons; right.
  - destruct (decide (i = j)) as [<-|Hne].
    + rewrite decide_True; [|by apply elem_of_cons; left].
      apply list_lookup_insert_eq. apply Hin. by apply elem_of_cons; left.
    + rewrite decide_False.
      2:{ rewrite elem_of_cons. intros [->|?]; tauto. }
      by rewrite list_lookup_insert_ne.
Qed.

(** Once every index of [0..n-1] has been received once, slot [i] holds
    the result of task [i]. *)
Lemma slots_fill_perm f (sched : list nat) n :
  Permutation sched (seq 0 n) ->
  slots_fill f sched (replicate n TestResult.zero) = map f (seq 0 n).
Proof.
  intros Hp. apply list_eq. intros j.
  rewrite slots_fill_lookup.
  2:{ intros i Hi. rewrite length_replicate.
      apply list_elem_of_In, (Permutation_in _ Hp), in_seq in Hi. lia. }
  rewrite list_lookup_fmap.
  destruct (decide (j ∈ sched)) as [Hj|Hj].
  - apply list_elem_of_In, (Permutation_in _ Hp), in_seq in Hj.
    rewrite lookup_seq_lt; [done|lia].
  - assert (~ (j < n)%nat) as Hn.
    { intros Hlt. apply Hj, list_elem_of_In.
      apply (Permutation_in _ (Permutation_sym Hp)). apply in_seq. lia. }
    rewrite lookup_seq_ge; [|lia]. simpl. apply lookup_replicate_None. lia.
Qed.

(** What [Run] returns, once the schedule is known to hand each index
    over exactly once. *)
Lemma Run_shape tasks workers client queryTimeout elapsed sched :
  tasks <> [] ->
  Permutation sched (seq 0 (length tasks)) ->
  let res i := fst (runOne (nth i tasks Task_zero) (client i) queryTimeout (elapsed i)) in
  Run tasks workers client queryTimeout elapsed sched =
  mkRunResult (Z.of_nat (length tasks))
              (count_pass true (map res sched))
              (count_pass false (map res sched))
              (map res (seq 0 (length tasks))).
Proof.
  intros Hne Hp res. unfold Run.
  destruct tasks as [|t0 ts]; [done|].
  rewrite (fold_collect res). cbn [Total Passed Failed Results].
  rewrite slots_fill_perm; [|done]. f_equal.
Qed.

(* ------------------------------------------------------------------ *)
(** ** Facts about [runOne] *)

Lemma runOne_Pass_true t client queryTimeout elapsedMs :
  (fst (runOne t client queryTimeout elapsedMs)).(TestResult.Pass) = true ->
  exists rows readRows readBytes,
    client.(CQuery) t.(Task.Query) = (rows, readRows, readBytes, None).
Proof.
  unfold runOne.
  destruct (String.eqb _ TaskTypeStructure).
  - destruct (CQuery client _) as [[[rows rr] rb] [e|]]; simpl; [done|eauto].
  - destruct (String.eqb _ TaskTypeQuery); [|done].
    destruct (CollectExplain _); [destruct (CExplain client _) as [txt [e|]]|];
      cbn; try done;
      destruct (CQuery client _) as [[[rows rr] rb] [e|]]; simpl; try done; eauto.
Qed.

Lemma runOne_TaskID t client queryTimeout elapsedMs :
  (fst (runOne t client queryTimeout elapsedMs)).(TestResult.TaskID) = t.(Task.ID).
Proof.
  unfold runOne.
  destruct (String.eqb _ TaskTypeStructure).
  - destruct (CQuery client _) as [[[rows rr] rb] [e|]]; done.
  - destruct (String.eqb _ TaskTypeQuery); [|done].
    destruct (CollectExplain _); [destruct (CExplain client _) as [txt [e|]]|];
      cbn; try done;
      destruct (CQuery client _) as [[[rows rr] rb] [e|]]; done.
Qed.

Lemma prefix_refl (s : string) : String.prefix s s = true.
Proof. induction s as [|c s IH]; simpl; [done|]. by destruct (ascii_dec c c). Qed.

Lemma Contains_prefix (s p : string) : String.prefix p s = true -> Contains s p = true.
Proof.
  intros H. assert (Contains s p = String.prefix p s ||
    match s with EmptyString => false | String _ s' => Contains s' p end) as ->
    by (destruct s; reflexivity).
  by rewrite H.
Qed.

Lemma prefix_app (a b : string) : String.prefix a (String.append a b) = true.
Proof. induction a as [|c a IH]; simpl; [by destruct b|]. by destruct (ascii_dec c c). Qed.

Lemma Contains_app_r (a b : string) : Contains (String.append a b) b = true.
Proof.
  induction a as [|c a IH]; simpl.
  - apply Contains_prefix, prefix_refl.
  - rewrite IH. apply orb_true_r.
Qed.

Lemma Contains_app_l (a b : string) : Contains (String.append a b) a = true.
Proof. apply Contains_prefix, prefix_app. Qed.

(* ------------------------------------------------------------------ *)
(** ** Claims about [Run] *)

(** C1: for a non-empty task list, whatever order the workers finish in
    (any permutation [sched] of the indices), [Run] returns as many
    results as tasks and [Results[i].TaskID = tasks[i].ID]. *)
Theorem Run_order_preserved tasks workers client queryTimeout elapsed sched :
  tasks <> [] ->
  Permutation sched (seq 0 (length tasks)) ->
  let r := Run tasks workers client queryTimeout elapsed sched in
  length r.(Results) = length tasks /\
  forall i t, tasks !! i = Some t ->
    exists res, r.(Results) !! i = Some res /\
                res.(TestResult.TaskID) = t.(Task.ID).
Proof.
  intros Hne Hp r. subst r. rewrite Run_shape; [|done|done]. cbn [Results].
  split.
  - by rewrite length_map, length_seq.
  - intros i t Hi. rewrite list_lookup_fmap, lookup_seq_lt.
    2:{ by apply lookup_lt_Some in Hi. }
    eexists; split; [done|]. simpl.
    rewrite (nth_lookup_Some tasks i Task_zero t Hi). apply runOne_TaskID.
Qed.

(** C2: for every task list, [Total = len(Results) = Passed + Failed];
    [Passed] and [Failed] count the passed and the failed results, slot
    [i] holds the one result of task [i], and a task whose data query
    answers an error (a deadline for a timed-out task) is a failed
    result, not a missing one. *)
Theorem Run_accounts_every_task tasks workers client queryTimeout elapsed sched :
  Permutation sched (seq 0 (length tasks)) ->
  let r := Run tasks workers client queryTimeout elapsed sched in
  r.(Total) = Z.of_nat (length r.(Results)) /\
  Z.of_nat (length r.(Results)) = r.(Passed) + r.(Failed) /\
  r.(Passed) = count_pass true r.(Results) /\
  r.(Failed) = count_pass false r.(Results) /\
  length r.(Results) = length tasks /\
  forall i t, tasks !! i = Some t ->
    exists res, r.(Results) !! i = Some res /\
      res = fst (runOne t (client i) queryTimeout (elapsed i)) /\
      (snd ((client i).(CQuery) t.(Task.Query)) <> None ->
      res.(TestResult.Pass) = false).
Proof.
  intros Hp r. subst r.
  destruct tasks as [|t0 ts] eqn:Ht.
  { simpl. repeat split; try done. }
  rewrite <- Ht in *. rewrite Run_shape; [|by subst|done]. cbn [Results Total Passed Failed].
  set (res := fun i => fst (runOne (nth i tasks Task_zero) (client i) queryTimeout (elapsed i))).
  assert (Hperm : forall b, count_pass b (map res sched) = count_pass b (map res (seq 0 (length tasks))))
    by (intros b; apply count_pass_perm, Permutation_map, Hp).
  rewrite !Hperm, length_map, length_seq.
  split; [done|]. split; [rewrite count_pass_split, length_map, length_seq; lia|].
  do 3 (split; [done|]).
  intros i t Hi. rewrite list_lookup_fmap, lookup_seq_lt.
  2:{ by apply lookup_lt_Some in Hi. }
  eexists; split; [done|]. unfold res. simpl.
  rewrite (nth_lookup_Some tasks i Task_zero t Hi). split; [done|].
  intros Herr. destruct (TestResult.Pass _) eqn:Hpass; [|done].
  apply runOne_Pass_true in Hpass as (rows & rr & rb & Hq).
  by rewrite Hq in Herr.
Qed.

(** C10: a task whose [Type] is neither ["structure"] nor ["query"] makes
    no client call, gets a failed result with an empty [Error] in its
    slot, and is counted in [Failed]. *)
Theorem Run_unknown_type_counted_failed tasks workers client queryTimeout elapsed sched i t :
  Permutation sched (seq 0 (length tasks)) ->
  tasks !! i = Some t ->
  t.(Task.Type_) <> TaskTypeStructure ->
  t.(Task.Type_) <> TaskTypeQuery ->
  let r := Run tasks workers client queryTimeout elapsed sched in
  snd (runOne t (client i) queryTimeout (elapsed i)) = [] /\
  exists res, r.(Results) !! i = Some res /\
    res.(TestResult.Pass) = false /\ res.(TestResult.Error) = "" /\
    r.(Failed) = count_pass false r.(Results) /\ 1 <= r.(Failed).
Proof.
  intros Hp Hi Hs Hq r.
  assert (Hrun : runOne t (client i) queryTimeout (elapsed i) =
    (TestResult.mk t.(Task.ID) t.(Task.Name) t.(Task.Description)
       t.(Task.Type_) "" false "" 0 0 0 0 "" [] [] 0 0 false "", [])).
  { unfold runOne. apply String.eqb_neq in Hs, Hq. by rewrite Hs, Hq. }
  rewrite Hrun. split; [done|].
  destruct (Run_accounts_every_task tasks workers client queryTimeout elapsed sched Hp)
    as (_ & _ & _ & Hf & _ & Hslot).
  fold r in Hf, Hslot.
  destruct (Hslot i t Hi) as (res & Hres & Heq & _).
  rewrite Hrun in Heq. simpl in Heq.
  assert (Hpf : res.(TestResult.Pass) = false) by (by subst res).
  exists res; split; [exact Hres|]. split; [done|]. split; [by subst res|].
  split; [done|].
  rewrite Hf, <- Hpf. apply count_pass_In.
  apply list_elem_of_In, list_elem_of_lookup. eauto.
Qed.

(* ------------------------------------------------------------------ *)
(** ** Claims about [runOne] *)

(** C3: a query task with [CollectExplain] whose EXPLAIN fails issues no
    data query, fails, and its [Error] is ["EXPLAIN: " + err.Error()],
    which mentions EXPLAIN and contains the failure detail. *)
Theorem runOne_explain_error t client queryTimeout elapsedMs explainText e :
  t.(Task.Type_) = TaskTypeQuery ->
  t.(Task.Opts).(CollectExplain) = true ->
  client.(CExplain) t.(Task.Query) = (explainText, Some e) ->
  let '(tr, calls) := runOne t client queryTimeout elapsedMs in
  (forall q, ~ In (CallQuery q) calls) /\
  tr.(TestResult.Pass) = false /\
  tr.(TestResult.Error) = String.append "EXPLAIN: " (Error e) /\
  Contains tr.(TestResult.Error) "EXPLAIN" = true /\
  Contains tr.(TestResult.Error) (Error e) = true.
Proof.
  intros Hty Hce Hex. unfold runOne. rewrite Hty, Hce, Hex. cbn.
  split; [intros q [H|[]]; discriminate|].
  do 2 (split; [done|]). split.
  - apply Contains_prefix. reflexivity.
  - apply (Contains_app_r "EXPLAIN: ").
Qed.

(** C8: a query task with [CollectExplain] whose EXPLAIN succeeds and
    whose data query then fails is failed with the query's error, and
    keeps the EXPLAIN text and the granule count taken from it. *)
Theorem runOne_query_error_keeps_explain t client queryTimeout elapsedMs
    explainText rows readRows readBytes e :
  t.(Task.Type_) = TaskTypeQuery ->
  t.(Task.Opts).(CollectExplain) = true ->
  client.(CExplain) t.(Task.Query) = (explainText, None) ->
  client.(CQuery) t.(Task.Query) = (rows, readRows, readBytes, Some e) ->
  let tr := fst (runOne t client queryTimeout elapsedMs) in
  tr.(TestResult.Pass) = false /\
  tr.(TestResult.Error) = Error e /\
  tr.(TestResult.ExplainText) = explainText /\
  tr.(TestResult.Granules) = ExtractGranules explainText.
Proof.
  intros Hty Hce Hex Hq. unfold runOne. rewrite Hty, Hce, Hex. cbn.
  rewrite Hq. done.
Qed.

(** C4, amended: a query task with [CollectExplain] whose EXPLAIN and
    data query both succeed passes, keeps the EXPLAIN text and its granule
    count, and records the rows returned, read rows, read bytes and the
    measured duration.  The [Client.Query] that runner.go calls returns
    no stats object, and [runOne] does not call [ProjectionUsed]: the
    projection flag, memory usage, query id and partition fields keep
    their zero values. *)
Theorem runOne_query_success t client queryTimeout elapsedMs
    explainText rows readRows readBytes :
  t.(Task.Type_) = TaskTypeQuery ->
  t.(Task.Opts).(CollectExplain) = true ->
  client.(CExplain) t.(Task.Query) = (explainText, None) ->
  client.(CQuery) t.(Task.Query) = (rows, readRows, readBytes, None) ->
  let tr := fst (runOne t client queryTimeout elapsedMs) in
  tr.(TestResult.Pass) = true /\
  tr.(TestResult.Error) = "" /\
  tr.(TestResult.ExplainText) = explainText /\
  tr.(TestResult.Granules) = ExtractGranules explainText /\
  tr.(TestResult.RowsReturned) = rows /\
  tr.(TestResult.ReadRows) = readRows /\
  tr.(TestResult.ReadBytes) = readBytes /\
  tr.(TestResult.DurationMs) = elapsedMs /\
  tr.(TestResult.ProjectionUsed) = false /\
  tr.(TestResult.MemoryUsage) = 0 /\
  tr.(TestResult.QueryID) = "" /\
  tr.(TestResult.Partitions) = [] /\
  tr.(TestResult.PartitionDetails) = [].
Proof.
  intros Hty Hce Hex Hq. unfold runOne. rewrite Hty, Hce, Hex. cbn.
  rewrite Hq. cbn. repeat split.
Qed.

(** C4, counterexample: on EXPLAIN text that names a projection, with
    both calls succeeding, the result passes but its [ProjectionUsed]
    field is [false] while [ProjectionUsed] of the EXPLAIN text is
    [true]. *)
Lemma runOne_projection_flag_not_recorded :
  let tr := fst (runOne (sample_task 1 TaskTypeQuery) ok_client 0 7) in
  tr.(TestResult.Pass) = true /\
  ProjectionUsed sample_explain = true /\
  tr.(TestResult.ProjectionUsed) <> ProjectionUsed sample_explain.
Proof. vm_compute. split; [reflexivity|]. split; [reflexivity|]. discriminate. Qed.

(* ------------------------------------------------------------------ *)
(** ** Witnesses on concrete runs *)

Lemma Run_order_preserved_witness :
  sample_tasks <> [] /\
  Permutation [1%nat; 0%nat] (seq 0 (length sample_tasks)) /\
  length (Run sample_tasks 4 (fun _ => ok_client) 0 (fun _ => 7) [1%nat; 0%nat]).(Results)
    = length sample_tasks.
Proof.
  assert (H1 : sample_tasks <> []) by discriminate.
  assert (H2 : Permutation [1%nat; 0%nat] (seq 0 (length sample_tasks)))
    by (simpl; apply perm_swap).
  split; [exact H1|]. split; [exact H2|].
  exact (proj1 (Run_order_preserved sample_tasks 4 (fun _ => ok_client) 0
                  (fun _ => 7) _ H1 H2)).
Defined.

Lemma Run_accounts_every_task_witness :
  Permutation [1%nat; 0%nat] (seq 0 (length sample_tasks)) /\
  let r := Run sample_tasks 4 (fun _ => ok_client) 0 (fun _ => 7) [1%nat; 0%nat] in
  Z.of_nat (length r.(Results)) = r.(Passed) + r.(Failed).
Proof.
  assert (H2 : Permutation [1%nat; 0%nat] (seq 0 (length sample_tasks)))
    by (simpl; apply perm_swap).
  split; [exact H2|].
  exact (proj1 (proj2 (Run_accounts_every_task sample_tasks 4 (fun _ => ok_client) 0
                         (fun _ => 7) _ H2))).
Defined.

Lemma Run_unknown_type_counted_failed_witness :
  Permutation [0%nat] (seq 0 (length unknown_tasks)) /\
  unknown_tasks !! 0%nat = Some (sample_task 1 "ddl") /\
  "ddl" <> TaskTypeStructure /\ "ddl" <> TaskTypeQuery /\
  snd (runOne (sample_task 1 "ddl") ok_client 0 7) = [].
Proof.
  assert (H1 : Permutation [0%nat] (seq 0 (length unknown_tasks))) by reflexivity.
  assert (H2 : unknown_tasks !! 0%nat = Some (sample_task 1 "ddl")) by reflexivity.
  assert (H3 : "ddl" <> TaskTypeStructure) by discriminate.
  assert (H4 : "ddl" <> TaskTypeQuery) by discriminate.
  do 4 (split; [assumption|]).
  exact (proj1 (Run_unknown_type_counted_failed unknown_tasks 1 (fun _ => ok_client) 0
                  (fun _ => 7) [0%nat] 0 (sample_task 1 "ddl") H1 H2 H3 H4)).
Defined.

Lemma runOne_explain_error_witness :
  (sample_task 1 TaskTypeQuery).(Task.Type_) = TaskTypeQuery /\
  (sample_task 1 TaskTypeQuery).(Task.Opts).(CollectExplain) = true /\
  explain_err_client.(CExplain) "SELECT 1" = ("", Some sample_err) /\
  (fst (runOne (sample_task 1 TaskTypeQuery) explain_err_client 0 7)).(TestResult.Error)
    = String.append "EXPLAIN: " (Error sample_err).
Proof.
  assert (H1 : (sample_task 1 TaskTypeQuery).(Task.Type_) = TaskTypeQuery) by reflexivity.
  assert (H2 : (sample_task 1 TaskTypeQuery).(Task.Opts).(CollectExplain) = true)
    by reflexivity.
  assert (H3 : explain_err_client.(CExplain) (sample_task 1 TaskTypeQuery).(Task.Query)
                 = ("", Some sample_err)) by reflexivity.
  split; [exact H1|]. split; [exact H2|]. split; [exact H3|].
  pose proof (runOne_explain_error (sample_task 1 TaskTypeQuery) explain_err_client 0 7
                "" sample_err H1 H2 H3) as H.
  destruct (runOne _ _ _ _) as [tr calls]. exact (proj1 (proj2 (proj2 H))).
Defined.

Lemma runOne_query_error_keeps_explain_witness :
  (sample_task 1 TaskTypeQuery).(Task.Type_) = TaskTypeQuery /\
  (sample_task 1 TaskTypeQuery).(Task.Opts).(CollectExplain) = true /\
  query_err_client.(CExplain) "SELECT 1" = (sample_explain, None) /\
  query_err_client.(CQuery) "SELECT 1" = (0, 0, 0, Some ErrDeadlineExceeded) /\
  (fst (runOne (sample_task 1 TaskTypeQuery) query_err_client 0 7)).(TestResult.Granules)
    = ExtractGranules sample_explain.
Proof.
  assert (H1 : (sample_task 1 TaskTypeQuery).(Task.Type_) = TaskTypeQuery) by reflexivity.
  assert (H2 : (sample_task 1 TaskTypeQuery).(Task.Opts).(CollectExplain) = true)
    by reflexivity.
  assert (H3 : query_err_client.(CExplain) (sample_task 1 TaskTypeQuery).(Task.Query)
                 = (sample_explain, None)) by reflexivity.
  assert (H4 : query_err_client.(CQuery) (sample_task 1 TaskTypeQuery).(Task.Query)
                 = (0, 0, 0, Some ErrDeadlineExceeded)) by reflexivity.
  do 4 (split; [assumption|]).
  exact (proj2 (proj2 (proj2 (runOne_query_error_keeps_explain _ _ 0 7 _ _ _ _ _
                                H1 H2 H3 H4)))).
Defined.

Lemma runOne_query_success_witness :
  (sample_task 1 TaskTypeQuery).(Task.Type_) = TaskTypeQuery /\
  (sample_task 1 TaskTypeQuery).(Task.Opts).(CollectExplain) = true /\
  ok_client.(CExplain) "SELECT 1" = (sample_explain, None) /\
  ok_client.(CQuery) "SELECT 1" = (5, 1000, 64000, None) /\
  (fst (runOne (sample_task 1 TaskTypeQuery) ok_client 0 7)).(TestResult.Pass) = true.
Proof.
  assert (H1 : (sample_task 1 TaskTypeQuery).(Task.Type_) = TaskTypeQuery) by reflexivity.
  assert (H2 : (sample_task 1 TaskTypeQuery).(Task.Opts).(CollectExplain) = true)
    by reflexivity.
  assert (H3 : ok_client.(CExplain) (sample_task 1 TaskTypeQuery).(Task.Query)
                 = (sample_explain, None)) by reflexivity.
  assert (H4 : ok_client.(CQuery) (sample_task 1 TaskTypeQuery).(Task.Query)
                 = (5, 1000, 64000, None)) by reflexivity.
  do 4 (split; [assumption|]).
  exact (proj1 (runOne_query_success _ _ 0 7 _ _ _ _ H1 H2 H3 H4)).
Defined.

(* ------------------------------------------------------------------ *)
(** ** Facts about [RunStress] *)

Lemma fold_receive stream acc :
  let acc' := fold_left receive stream acc in
  acc'.(total) = acc.(total) + Z.of_nat (length stream) /\
  acc'.(success) = acc.(success) + count_calls is_success stream /\
  acc'.(failed) = acc.(failed) + count_calls is_failed stream /\
  acc'.(cancelled) = acc.(cancelled) + count_calls is_cancelled stream /\
  acc'.(latencies) = app acc.(latencies) (success_latencies stream).
Proof.
  unfold count_calls, success_latencies.
  revert acc. induction stream as [|[d err] stream IH]; intros acc; cbv zeta.
  { simpl. rewrite app_nil_r. repeat split; lia. }
  cbn [fold_left].
  destruct (IH (receive acc (d, err))) as (H1 & H2 & H3 & H4 & H5).
  rewrite H1, H2, H3, H4, H5. destruct acc as [to su fa ca la es].
  destruct err as [e|]; simpl.
  - destruct (isContextCanceled e); simpl; repeat split; lia.
  - rewrite <- app_assoc. repeat split; lia.
Qed.

Lemma insert_sorted_perm x (l : list Z) : Permutation (insert_sorted x l) (x :: l).
Proof.
  induction l as [|y l IH]; simpl; [done|].
  destruct (x <=? y); [done|].
  etransitivity; [apply perm_skip, IH|apply perm_swap].
Qed.

Lemma insert_sorted_sorted x (l : list Z) : Sorted Z.le l -> Sorted Z.le (insert_sorted x l).
Proof.
  induction 1 as [|y l Hs IH Hhd]; simpl; [repeat constructor|].
  destruct (x <=? y) eqn:Hxy.
  - apply Z.leb_le in Hxy. constructor; [constructor; done|constructor; done].
  - apply Z.leb_gt in Hxy. constructor; [exact IH|].
    destruct l as [|z l]; simpl.
    + constructor. lia.
    + destruct (x <=? z); constructor; [lia|]. by inversion Hhd.
Qed.

Lemma sort_Float64s_spec (l : list Z) :
  Sorted Z.le (sort_Float64s l) /\ Permutation (sort_Float64s l) l.
Proof.
  induction l as [|x l [IHs IHp]]; simpl; [split; constructor|].
  split; [by apply insert_sorted_sorted|].
  etransitivity; [apply insert_sorted_perm|]. by apply perm_skip.
Qed.

Lemma percentile_rank (sorted : list Z) p :
  sorted <> [] ->
  percentile sorted (Z.of_nat (length sorted)) p =
  nth (Z.to_nat (Z.min (Z.of_nat (length sorted) * p / 100)
                       (Z.of_nat (length sorted) - 1))) sorted 0.
Proof.
  intros Hne. unfold percentile.
  destruct sorted as [|x l]; [done|]. simpl length.
  rewrite (proj2 (Z.eqb_neq _ 0)) by lia.
  destruct (_ >=? _) eqn:Hge; f_equal; f_equal.
  - apply Z.geb_le in Hge. lia.
  - rewrite Z.geb_leb, Z.leb_gt in Hge. lia.
Qed.

Lemma stress_draw_offsets baseQuery workers st :
  stress_reach baseQuery workers st ->
  st.(counter) = Z.of_nat (length st.(issued)) mod Uint64Mod /\
  forall j e, st.(issued) !! j = Some e ->
    offset_of e = (Z.of_nat j + 1) mod Uint64Mod /\
    query_of e = ReplaceAll (stress_base baseQuery) timeOffsetPlaceholder
                            (FormatUint (offset_of e)).
Proof.
  induction 1 as [|w st Hw Hreach [Hc IH]]; simpl.
  { split; [done|]. intros j e Hj. by rewrite lookup_nil in Hj. }
  rewrite length_app. simpl. split.
  - rewrite Hc, Zplus_mod_idemp_l. f_equal. lia.
  - intros j e Hj. destruct (decide (j < length (issued st))%nat) as [Hlt|Hge].
    + rewrite lookup_app_l in Hj by done. by apply IH.
    + rewrite lookup_app_r in Hj by lia.
      apply list_lookup_singleton_Some in Hj as [Hj0 <-]. simpl. split; [|done].
      rewrite Hc, Zplus_mod_idemp_l. f_equal. lia.
Qed.

Lemma draws_reach baseQuery k : stress_reach baseQuery 1 (draws baseQuery k).
Proof. induction k; simpl; constructor; [lia|done]. Qed.

Lemma draws_length baseQuery k : length (draws baseQuery k).(issued) = k.
Proof. induction k; simpl; [done|]. rewrite length_app, IHk. simpl. lia. Qed.

(* ------------------------------------------------------------------ *)
(** ** Claims about [ExtractGranules] and [RunStress] *)

Example ExtractGranules_spec_example :
  ExtractGranules "Granules: 100/500 ... Granules: 40/500" = 40.
Proof. reflexivity. Qed.

(** C5: on ["Granules: 0/10 Granules: 5/10"] the matches' first
    components are [0] and [5], but [ExtractGranules] returns [5]: the
    value [0] doubles as "no minimum yet", so a first match of [0] is
    overwritten by the next one. *)
Theorem ExtractGranules_zero_overwritten :
  map (fun m => Sscanf_d (nth 1 m ""))
      (FindAllStringSubmatch "Granules: 0/10 Granules: 5/10") = [Some 0; Some 5] /\
  ExtractGranules "Granules: 0/10 Granules: 5/10" = 5.
Proof. split; vm_compute; reflexivity. Qed.

(** C6: the successful latencies are sorted ascending; when there are
    none the three percentiles are [0], otherwise each is the element at
    index [min(n*p/100, n-1)] of the sorted list, for [p] in 50, 95, 99;
    on the latencies [10, 20, 30, 40, 50] p50 is [30] and p99 is [50]. *)
Theorem stress_percentiles stream :
  let r := stress_result stream in
  let lat := success_latencies stream in
  let n := Z.of_nat (length lat) in
  let at_rank p := nth (Z.to_nat (Z.min (n * p / 100) (n - 1))) (sort_Float64s lat) 0 in
  Sorted Z.le (sort_Float64s lat) /\ Permutation (sort_Float64s lat) lat /\
  match lat with
  | [] => r.(LatencyP50Ms) = 0 /\ r.(LatencyP95Ms) = 0 /\ r.(LatencyP99Ms) = 0
  | _ => r.(LatencyP50Ms) = at_rank 50 /\ r.(LatencyP95Ms) = at_rank 95 /\
         r.(LatencyP99Ms) = at_rank 99
  end /\
  let r5 := stress_result [(10, None); (20, None); (30, None); (40, None); (50, None)] in
  r5.(LatencyP50Ms) = 30 /\ r5.(LatencyP99Ms) = 50.
Proof.
  cbv zeta.
  destruct (sort_Float64s_spec (success_latencies stream)) as [Hs Hp].
  split; [done|]. split; [done|]. split; [|split; reflexivity].
  unfold stress_result. cbv zeta.
  destruct (fold_receive stream stress_acc0) as (_ & _ & _ & _ & Hl).
  rewrite Hl. cbn [latencies stress_acc0]. rewrite app_nil_l.
  remember (success_latencies stream) as lat eqn:Hlat. clear Hlat.
  pose proof (Permutation_length Hp) as Hlen.
  set (srt := sort_Float64s lat) in *. clearbody srt.
  destruct lat as [|x l]; [done|].
  assert (Hne : srt <> []) by (intros ->; discriminate Hlen).
  rewrite <- Hlen.
  replace (0 <? length srt)%nat with true by (destruct srt; [done|reflexivity]).
  cbn [LatencyP50Ms LatencyP95Ms LatencyP99Ms].
  rewrite !percentile_rank by done.
  repeat split; reflexivity.
Qed.

(** C7: each received call moves [Total] and exactly one of [Success],
    [Failed], [Cancelled] by one, chosen by its error alone: no error is a
    success, an error that is or wraps [context.Canceled] or
    [context.DeadlineExceeded] is cancelled, any other error is failed;
    over a run [Total = Success + Failed + Cancelled]. *)
Theorem stress_outcome_classification stream :
  (forall acc durationMs err,
     let acc' := receive acc (durationMs, err) in
     acc'.(total) = acc.(total) + 1 /\
     acc'.(success) = acc.(success) + Z.b2z (is_success err) /\
     acc'.(failed) = acc.(failed) + Z.b2z (is_failed err) /\
     acc'.(cancelled) = acc.(cancelled) + Z.b2z (is_cancelled err)) /\
  (forall err,
     Z.b2z (is_success err) + Z.b2z (is_failed err) + Z.b2z (is_cancelled err) = 1) /\
  (forall e, is_cancelled (Some e) = true <->
             errors_Is Canceled e = true \/ errors_Is DeadlineExceeded e = true) /\
  let r := stress_result stream in
  r.(STotal) = Z.of_nat (length stream) /\
  r.(STotal) = r.(SSuccess) + r.(SFailed) + r.(SCancelled) /\
  r.(SSuccess) = count_calls is_success stream /\
  r.(SFailed) = count_calls is_failed stream /\
  r.(SCancelled) = count_calls is_cancelled stream.
Proof.
  split.
  { intros [to su fa ca la es] d [e|]; simpl.
    - destruct (isContextCanceled e); simpl; repeat split; lia.
    - repeat split; lia. }
  split.
  { intros [e|]; simpl; [destruct (isContextCanceled e)|]; reflexivity. }
  split.
  { intros e. simpl. unfold isContextCanceled. by rewrite orb_true_iff. }
  destruct (fold_receive stream stress_acc0) as (H1 & H2 & H3 & H4 & _).
  assert (Hsum : forall l : list (Z * option goerr),
             Z.of_nat (length l) = count_calls is_success l + count_calls is_failed l
                                   + count_calls is_cancelled l).
  { unfold count_calls. induction l as [|[d [e|]] l IH]; simpl; [done| |].
    - destruct (isContextCanceled e); simpl; lia.
    - lia. }
  unfold stress_result. simpl in H1, H2, H3, H4.
  destruct (0 <? _)%nat; simpl; rewrite H1, H2, H3, H4; specialize (Hsum stream);
    repeat split; lia.
Qed.

(** C9, amended: in every interleaving of the workers, the [j]-th
    increment of the shared [uint64] counter hands out [(j + 1) mod 2^64],
    and the query of that call is the template with that value in place
    of [$time_offset_ms$].  While fewer than [2^64] calls have been made
    the values handed out are exactly [1, 2, ..., k]: increasing, without
    duplicates and without gaps. *)
Theorem stress_offsets_distinct baseQuery workers st :
  stress_reach baseQuery workers st ->
  (forall j e, st.(issued) !! j = Some e ->
     offset_of e = (Z.of_nat j + 1) mod Uint64Mod /\
     query_of e = ReplaceAll (stress_base baseQuery) timeOffsetPlaceholder
                             (FormatUint (offset_of e))) /\
  (Z.of_nat (length st.(issued)) < Uint64Mod ->
     map offset_of st.(issued) = map (fun j => Z.of_nat j + 1) (seq 0 (length st.(issued))) /\
     NoDup (map offset_of st.(issued))).
Proof.
  intros Hr. destruct (stress_draw_offsets _ _ _ Hr) as [_ Hoff].
  split; [exact Hoff|]. intros Hlt.
  assert (Hmap : map offset_of st.(issued) =
                 map (fun j => Z.of_nat j + 1) (seq 0 (length st.(issued)))).
  { apply list_eq. intros j. rewrite !list_lookup_fmap.
    destruct (st.(issued) !! j) as [e|] eqn:Hj.
    - pose proof (lookup_lt_Some _ _ _ Hj) as Hjl.
      rewrite lookup_seq_lt by done. simpl. f_equal.
      rewrite (proj1 (Hoff j e Hj)). apply Z.mod_small. unfold Uint64Mod in *. lia.
    - apply lookup_ge_None in Hj. by rewrite lookup_seq_ge. }
  split; [exact Hmap|]. rewrite Hmap.
  apply NoDup_fmap_2_strong; [intros a b _ _ Hab; lia|apply NoDup_seq].
Qed.

(** C9, counterexample: one worker making [2^64 + 1] calls draws [1]
    twice, at the first call and at the call after the counter wrapped. *)
Lemma stress_offset_repeats_after_wrap :
  exists st, stress_reach "SELECT $time_offset_ms$" 1 st /\
             ~ NoDup (map offset_of st.(issued)).
Proof.
  set (b := "SELECT $time_offset_ms$").
  assert (HK : exists K : nat, Z.of_nat K = Uint64Mod)
    by (exists (Z.to_nat Uint64Mod); apply Z2Nat.id; unfold Uint64Mod; lia).
  destruct HK as [K HK].
  exists (draws b (S K)). split; [apply draws_reach|]. intros Hnd.
  destruct (stress_draw_offsets b 1 _ (draws_reach b (S K))) as [_ Hoff].
  pose proof (draws_length b (S K)) as Hlen.
  destruct (lookup_lt_is_Some_2 (draws b (S K)).(issued) 0%nat) as [e0 He0]; [lia|].
  destruct (lookup_lt_is_Some_2 (draws b (S K)).(issued) K) as [eK HeK]; [lia|].
  pose proof (proj1 (Hoff _ _ He0)) as H0.
  pose proof (proj1 (Hoff _ _ HeK)) as H1.
  rewrite HK in H1. rewrite Z.add_mod, Z_mod_same_full, Z.add_0_l, Z.mod_mod in H1
    by (unfold Uint64Mod; lia).
  assert (Hsame : offset_of e0 = offset_of eK) by (rewrite H0, H1; reflexivity).
  assert (K = 0%nat).
  { symmetry. apply (NoDup_lookup _ _ _ (offset_of e0) Hnd).
    - by rewrite list_lookup_fmap, He0.
    - by rewrite list_lookup_fmap, HeK, Hsame. }
  subst K. unfold Uint64Mod in HK. simpl in HK. lia.
Qed.

Lemma stress_offsets_distinct_witness :
  stress_reach "SELECT $time_offset_ms$" 2
    (draw "SELECT $time_offset_ms$" 1 (draw "SELECT $time_offset_ms$" 0 stress_init)) /\
  map offset_of
    (draw "SELECT $time_offset_ms$" 1 (draw "SELECT $time_offset_ms$" 0 stress_init)).(issued)
    = [1; 2].
Proof.
  assert (Hr : stress_reach "SELECT $time_offset_ms$" 2
    (draw "SELECT $time_offset_ms$" 1 (draw "SELECT $time_offset_ms$" 0 stress_init)))
    by (constructor; [lia|constructor; [lia|constructor]]).
  split; [exact Hr|].
  pose proof (stress_offsets_distinct _ _ _ Hr) as [_ H].
  rewrite (proj1 (H ltac:(vm_compute; reflexivity))). reflexivity.
Defined.

(* ------------------------------------------------------------------ *)
(** ** The report status of a row *)

Ltac z_cases :=
  repeat match goal with
  | |- context [?a <? ?b] => destruct (Z.ltb_spec a b)
  | |- context [?a <=? ?b] => destruct (Z.leb_spec a b)
  end.

(** [Failed] of a [Run] result counts its non-passed results. *)
Lemma Run_Failed_count tasks workers client queryTimeout elapsed sched :
  Permutation sched (seq 0 (length tasks)) ->
  let r := Run tasks workers client queryTimeout elapsed sched in
  r.(Failed) = count_pass false r.(Results).
Proof.
  intros Hp r. subst r.
  destruct tasks as [|t0 ts] eqn:Ht; [done|].
  rewrite <- Ht in *. rewrite Run_shape; [|by subst|done]. cbn [Results Failed].
  apply count_pass_perm, Permutation_map, Hp.
Qed.

Lemma count_status_fail_ge meta (l : list TestResult.t) :
  count_pass false l <= count_status "fail" (map (fun res => rowStatus res meta) l).
Proof.
  induction l as [|res l IH]; [done|].
  unfold count_status in *. cbn [map List.filter count_pass].
  destruct (TestResult.Pass res) eqn:Hp; cbn [Bool.eqb].
  - destruct (String.eqb "fail" (rowStatus res meta)); cbn [length];
      rewrite ?Nat2Z.inj_succ; lia.
  - unfold rowStatus at 1. rewrite Hp. cbn [negb List.filter].
    rewrite String.eqb_refl. cbn [length]. rewrite Nat2Z.inj_succ. lia.
Qed.

Lemma count_status_fail_nil_meta now (l : list TestResult.t) :
  count_status "fail" (map (fun res => rowStatus res (ReportMeta.mk now "" "" "" 0 0 0 0)) l)
  = count_pass false l.
Proof.
  induction l as [|res l IH]; [done|].
  unfold count_status in *. cbn [map List.filter count_pass].
  unfold rowStatus at 1. cbn [ReportMeta.GranulesFail ReportMeta.GranulesWarn
    ReportMeta.ReadRowsWarn]. change (0 <? 0) with false. cbn [andb orb].
  destruct (TestResult.Pass res); cbn [negb List.filter Bool.eqb].
  - replace (String.eqb "fail" "ok") with false by reflexivity. lia.
  - rewrite String.eqb_refl. cbn [length]. rewrite Nat2Z.inj_succ. lia.
Qed.

(** X1: a result that did not pass is shown as ["fail"] whatever the
    thresholds; a passed one is ["fail"] exactly when the granules-fail
    threshold is set (positive) and the result's granules reach it. *)
Theorem rowStatus_fail_iff res meta :
  rowStatus res meta = "fail" <->
  res.(TestResult.Pass) = false \/
  (0 < meta.(ReportMeta.GranulesFail) /\
   meta.(ReportMeta.GranulesFail) <= res.(TestResult.Granules)).
Proof.
  unfold rowStatus. destruct (TestResult.Pass res); cbn [negb].
  - z_cases; cbn; split; intros Hs; try done; try lia;
      destruct Hs as [Hs|Hs]; try done; lia.
  - split; [by left|done].
Qed.

(** X2: thresholds that are zero or negative (as with a nil [meta]) are
    off: the status is then ["ok"] for a passed result and ["fail"]
    otherwise, never ["warn"]. *)
Theorem rowStatus_thresholds_off res meta :
  meta.(ReportMeta.GranulesWarn) <= 0 ->
  meta.(ReportMeta.GranulesFail) <= 0 ->
  meta.(ReportMeta.ReadRowsWarn) <= 0 ->
  rowStatus res meta = if res.(TestResult.Pass) then "ok" else "fail".
Proof.
  intros H1 H2 H3. unfold rowStatus.
  destruct (TestResult.Pass res); cbn [negb]; [|done].
  z_cases; cbn; try lia; done.
Qed.

(** X3: raising a row's granule count never lowers its status in the
    order ok < warn < fail. *)
Theorem rowStatus_granules_monotone res meta g :
  res.(TestResult.Granules) <= g ->
  status_rank (rowStatus res meta) <=
  status_rank (rowStatus (TestResult.set_Granules g res) meta).
Proof.
  intros Hg. unfold rowStatus, TestResult.set_Granules.
  cbn [TestResult.Pass TestResult.Granules TestResult.ReadRows].
  destruct (TestResult.Pass res); cbn [negb]; [|cbn; lia].
  z_cases; cbn; lia.
Qed.

(** X4: a read-rows count of 2^63 or more (a [uint64] that [int] turns
    negative) never triggers the read-rows warning: the status is the one
    computed with that threshold switched off. *)
Theorem rowStatus_ReadRows_wrap res meta :
  2 ^ 63 <= res.(TestResult.ReadRows) < 2 ^ 64 ->
  rowStatus res meta = rowStatus res (without_ReadRowsWarn meta).
Proof.
  intros Hr. unfold rowStatus, without_ReadRowsWarn, int_of_uint64. cbn.
  destruct (TestResult.Pass res); cbn [negb]; [|done].
  z_cases; cbn; try done; lia.
Qed.

(** X5: in the report of a [Run], at least [Failed] rows are ["fail"];
    with a nil [meta] exactly [Failed] rows are. *)
Theorem report_fail_rows_Run now meta tasks workers client queryTimeout elapsed sched :
  Permutation sched (seq 0 (length tasks)) ->
  let r := Run tasks workers client queryTimeout elapsed sched in
  r.(Failed) <= count_status "fail" (row_statuses now r meta) /\
  (meta = None -> count_status "fail" (row_statuses now r meta) = r.(Failed)).
Proof.
  intros Hp r. pose proof (Run_Failed_count tasks workers client queryTimeout elapsed sched Hp)
    as Hf. cbn zeta in Hf. fold r in Hf. rewrite Hf.
  unfold row_statuses. split.
  - apply count_status_fail_ge.
  - intros ->. apply count_status_fail_nil_meta.
Qed.

(* ------------------------------------------------------------------ *)
(** ** Escaping in the structure-check queries *)

Lemma prefix_empty (s : string) : String.prefix "" s = true.
Proof. by destruct s. Qed.

Lemma substring_0_length (s : string) : substring 0 (String.length s) s = s.
Proof. induction s as [|c s IH]; simpl; [done|]. by rewrite IH. Qed.

(** [strings.ReplaceAll] with a one-byte [old] replaces each such byte. *)
Lemma replace_all_char fuel o new s :
  (String.length s < fuel)%nat ->
  replace_all fuel s (String o EmptyString) new = replace_char o new s.
Proof.
  revert fuel. induction s as [|c s IH]; intros [|fuel] Hf; cbn in Hf; try lia; [done|].
  cbn [replace_all replace_char String.prefix].
  destruct (ascii_dec o c) as [<-|Hne].
  - rewrite prefix_empty. f_equal. cbn [String.length substring].
    replace (S (String.length s) - 1)%nat with (String.length s) by lia.
    rewrite substring_0_length. apply IH. lia.
  - f_equal. apply IH. lia.
Qed.

Lemma ReplaceAll_char s o new :
  ReplaceAll s (String o EmptyString) new = replace_char o new s.
Proof. apply replace_all_char. lia. Qed.


Lemma unquote_ticks_other c r :
  c <> "`"%char -> unquote_ticks (String c r) = String c (unquote_ticks r).
Proof.
  intros Hc. destruct c as [[] [] [] [] [] [] [] []]; try reflexivity.
  destruct r as [|d r]; [reflexivity|]. by exfalso.
Qed.

Lemma unquote_ticks_double s :
  unquote_ticks (replace_char "`" "``" s) = s.
Proof.
  induction s as [|c s IH]; [done|]. cbn [replace_char].
  destruct (ascii_dec "`" c) as [<-|Hne].
  - simpl. change (String.append "" ?x) with x. by rewrite IH.
  - rewrite unquote_ticks_other by congruence. by rewrite IH.
Qed.

Lemma drop_last_app_char s c :
  drop_last (String.append s (String c EmptyString)) = s.
Proof.
  induction s as [|d s IH]; [done|].
  change (String.append (String d s) (String c EmptyString))
    with (String d (String.append s (String c EmptyString))).
  destruct (String.append s (String c EmptyString)) as [|e r] eqn:He.
  - by destruct s.
  - change (drop_last (String d (String e r))) with (String d (drop_last (String e r))).
    by rewrite IH.
Qed.

Lemma unescapeIdentifier_other c r :
  c <> "`"%char -> unescapeIdentifier (String c r) = String c r.
Proof.
  intros Hc. destruct c as [[] [] [] [] [] [] [] []]; try reflexivity. by exfalso.
Qed.



(** X6: [escapeIdentifier] loses nothing: reading its output back
    (a leading backquote opens a quoted name in which [``] is one
    backquote, anything else is the name itself) gives the input, for
    every name, the empty one and names with backquotes included. *)
Theorem escapeIdentifier_roundtrip s :
  unescapeIdentifier (escapeIdentifier s) = s.
Proof.
  unfold escapeIdentifier.
  destruct (String.eqb s "" || ContainsAny s identifier_specials) eqn:Hq.
  - change (String.append "`" ?x) with (String "`" x).
    change (unescapeIdentifier (String "`" ?x)) with (unquote_ticks (drop_last x)).
    rewrite drop_last_app_char, ReplaceAll_char. apply unquote_ticks_double.
  - apply orb_false_iff in Hq as [Hempty Hspec].
    destruct s as [|c r]; [done|].
    apply unescapeIdentifier_other. intros ->. cbn in Hspec. done.
Qed.


(* ------------------------------------------------------------------ *)
(** ** Structure checks and [BuildTasks] *)

Lemma structureQuery_cases t db tb :
  (In t structure_check_types /\
   (exists q, structureQuery t db tb = inl q) /\ structureDescription t <> "") \/
  (~ In t structure_check_types /\
   structureQuery t db tb = inr (ErrText (String.append "unknown structure check type: " t)) /\
   structureDescription t = "").
Proof.
  unfold structureQuery, structureDescription, structure_check_types.
  destruct (String.eqb_spec t "partitions") as [->|H1].
  { left. repeat split; [by left|eauto|discriminate]. }
  destruct (String.eqb_spec t "indexes") as [->|H2].
  { left. repeat split; [by right; left|eauto|discriminate]. }
  destruct (String.eqb_spec t "projections") as [->|H3].
  { left. repeat split; [by do 2 right; left|eauto|discriminate]. }
  destruct (String.eqb_spec t "granules_settings") as [->|H4].
  { left. repeat split; [by do 3 right; left|eauto|discriminate]. }
  right. repeat split. simpl. intuition.
Qed.

Lemma build_structure_tasks_ok db tb scs id out :
  build_structure_tasks db tb scs id = inl out ->
  length out = length scs /\
  forall i sc, scs !! i = Some sc ->
    exists q, structureQuery sc.(StructureCheck.Type_) db tb = inl q /\
      out !! i = Some (Task.mk (id + Z.of_nat i) sc.(StructureCheck.Name)
                         (structure_task_description sc) TaskTypeStructure q
                         (mkTaskOpts false false)).
Proof.
  revert id out. induction scs as [|sc scs IH]; intros id out H; cbn in H.
  { injection H as <-. split; [done|]. intros i sc Hi. done. }
  destruct (structureQuery _ db tb) as [q|err] eqn:Hq; [|done].
  destruct (build_structure_tasks db tb scs (id + 1)) as [rest|e] eqn:Hr; [|done].
  injection H as <-. destruct (IH _ _ Hr) as [Hlen Hl].
  split; [by cbn; rewrite Hlen|].
  intros [|i] sc' Hi; cbn in Hi.
  - injection Hi as <-. exists q. split; [done|]. cbn. rewrite Z.add_0_r. done.
  - destruct (Hl i sc' Hi) as (q' & Hq' & Hout). exists q'. split; [done|].
    refine (eq_trans (_ : _ = rest !! i) _); [reflexivity|].
    rewrite Hout. do 2 f_equal. lia.
Qed.

Lemma build_structure_tasks_err db tb scs id name err :
  build_structure_tasks db tb scs id = inr (name, err) <->
  exists i sc, scs !! i = Some sc /\
    ~ In sc.(StructureCheck.Type_) structure_check_types /\
    (forall k sc', (k < i)%nat -> scs !! k = Some sc' ->
       In sc'.(StructureCheck.Type_) structure_check_types) /\
    name = sc.(StructureCheck.Name) /\
    err = ErrText (String.append "unknown structure check type: " sc.(StructureCheck.Type_)).
Proof.
  revert id. induction scs as [|sc scs IH]; intros id; cbn.
  { split; [done|]. intros (i & sc & Hi & _). done. }
  destruct (structureQuery_cases sc.(StructureCheck.Type_) db tb)
    as [(Hin & [q Hq] & _)|(Hnin & Hq & _)]; rewrite Hq.
  - destruct (build_structure_tasks db tb scs (id + 1)) as [rest|e] eqn:Hr.
    + split; [done|]. intros (i & sc' & Hi & Hn & Hbefore & Hname & Herr).
      destruct i as [|i]; cbn in Hi.
      * injection Hi as <-. done.
      * assert (Hx : build_structure_tasks db tb scs (id + 1) = inr (name, err)).
        { apply IH. exists i, sc'. split; [done|]. split; [done|].
          split; [|done].
          intros k sc'' Hk Hk'. apply (Hbefore (S k)); [lia|done]. }
        congruence.
    + rewrite <- Hr, IH. split.
      * intros (i & sc' & Hi & Hn & Hbefore & Hname & Herr).
        exists (S i), sc'. repeat split; try done.
        intros [|k] sc'' Hk Hk'; cbn in Hk'; [by injection Hk' as <-|].
        apply (Hbefore k); [lia|done].
      * intros ([|i] & sc' & Hi & Hn & Hbefore & Hname & Herr); cbn in Hi.
        { injection Hi as <-. done. }
        exists i, sc'. repeat split; try done.
        intros k sc'' Hk Hk'. apply (Hbefore (S k)); [lia|done].
  - split.
    + intros [= <- <-]. exists 0%nat, sc. repeat split; try done. intros k sc' Hk. lia.
    + intros ([|i] & sc' & Hi & Hn & Hbefore & -> & ->); cbn in Hi.
      * by injection Hi as <-.
      * exfalso. apply Hnin, (Hbefore 0%nat); [lia|done].
Qed.

Lemma build_query_tasks_lookup visit fullTable p qts id j :
  build_query_tasks visit fullTable p qts id !! j =
  (fun qt => Task.mk (id + Z.of_nat j) qt.(QueryTemplate.Name) qt.(QueryTemplate.Description)
     TaskTypeQuery (SubstituteQueryParams visit qt.(QueryTemplate.Query) fullTable p)
     (mkTaskOpts qt.(QueryTemplate.CollectExplain) qt.(QueryTemplate.CollectStats)))
  <$> qts !! j.
Proof.
  revert id j. induction qts as [|qt qts IH]; intros id [|j]; cbn; try done.
  - by rewrite Z.add_0_r.
  - rewrite IH. destruct (qts !! j); cbn; [|done]. do 2 f_equal. lia.
Qed.

Lemma length_build_query_tasks visit fullTable p qts id :
  length (build_query_tasks visit fullTable p qts id) = length qts.
Proof. revert id. induction qts; intros id; cbn; [done|]. by rewrite IHqts. Qed.

(** X8: [structureQuery] has a query exactly for the four check types
    [partitions], [indexes], [projections] and [granules_settings], and
    [structureDescription] a non-empty text exactly for them; any other
    type is the error [unknown structure check type: <type>]. *)
Theorem structureQuery_known_types t db tb :
  (In t structure_check_types <-> exists q, structureQuery t db tb = inl q) /\
  (In t structure_check_types <-> structureDescription t <> "") /\
  (~ In t structure_check_types ->
   structureQuery t db tb = inr (ErrText (String.append "unknown structure check type: " t))).
Proof.
  destruct (structureQuery_cases t db tb) as [(Hin & Hq & Hd)|(Hnin & Hq & Hd)].
  - repeat split; try done; tauto.
  - rewrite Hq, Hd. split; [|split; [|done]]; split; try done.
    intros [q Hq']. discriminate.
Qed.

(** X9: when [BuildTasks] succeeds it returns one task per structure
    check followed by one task per query template, in config order, with
    IDs [1, 2, ..., n]; a structure task has type [structure], empty
    options, the check's query and its description or, if that is empty,
    the type's (never empty); a query task has type [query], the
    template's name, description and options, and its query with the
    parameters substituted. *)
Theorem BuildTasks_ok visit cfg out :
  BuildTasks visit cfg = inl out ->
  let db := cfg.(ClickHouse_).(Config.Database) in
  let tb := cfg.(ClickHouse_).(Config.TableName) in
  let scs := cfg.(StructureChecks) in
  let qts := cfg.(QueryTemplates) in
  length out = (length scs + length qts)%nat /\
  (forall k t, out !! k = Some t -> t.(Task.ID) = Z.of_nat k + 1) /\
  (forall i sc, scs !! i = Some sc -> exists t,
     out !! i = Some t /\ t.(Task.Name) = sc.(StructureCheck.Name) /\
     t.(Task.Type_) = TaskTypeStructure /\ t.(Task.Opts) = mkTaskOpts false false /\
     structureQuery sc.(StructureCheck.Type_) db tb = inl t.(Task.Query) /\
     t.(Task.Description) = structure_task_description sc /\ t.(Task.Description) <> "") /\
  (forall j qt, qts !! j = Some qt -> exists t,
     out !! (length scs + j)%nat = Some t /\ t.(Task.Name) = qt.(QueryTemplate.Name) /\
     t.(Task.Description) = qt.(QueryTemplate.Description) /\
     t.(Task.Type_) = TaskTypeQuery /\
     t.(Task.Opts) = mkTaskOpts qt.(QueryTemplate.CollectExplain) qt.(QueryTemplate.CollectStats) /\
     t.(Task.Query) = SubstituteQueryParams visit qt.(QueryTemplate.Query)
                        (String.append db (String.append "." tb)) cfg.(TestParams_)).
Proof.
  intros H db tb scs qts. unfold BuildTasks in H. cbv zeta in H.
  destruct (build_structure_tasks _ _ _ 1) as [st|e] eqn:Hs; [|done].
  injection H as <-. destruct (build_structure_tasks_ok _ _ _ _ _ Hs) as [Hlen Hl].
  fold db tb scs in Hlen, Hl. fold db tb scs qts.
  split; [by rewrite length_app, Hlen, length_build_query_tasks|].
  split; [|split].
  - intros k t Hk. destruct (decide (k < length st)%nat) as [Hlt|Hge].
    + rewrite lookup_app_l in Hk by done.
      destruct (lookup_lt_is_Some_2 scs k) as [sc Hsc]; [lia|].
      destruct (Hl k sc Hsc) as (q & _ & Hout). rewrite Hout in Hk.
      injection Hk as <-. cbn. lia.
    + rewrite lookup_app_r in Hk by lia. rewrite build_query_tasks_lookup in Hk.
      destruct (qts !! _) as [qt|]; cbn in Hk; [|done].
      injection Hk as <-. cbn. rewrite Nat2Z.inj_sub by lia. lia.
  - intros i sc Hi. destruct (Hl i sc Hi) as (q & Hq & Hout).
    eexists. rewrite lookup_app_l by (rewrite Hlen; by apply lookup_lt_Some in Hi).
    split; [exact Hout|]. cbn. repeat split; try done.
    unfold structure_task_description.
    destruct (structureQuery_cases sc.(StructureCheck.Type_) db tb)
      as [(_ & _ & Hd)|(_ & Hq' & _)]; [|congruence].
    destruct (String.eqb_spec sc.(StructureCheck.Description) "") as [_|Hne]; done.
  - intros j qt Hj. eexists.
    rewrite lookup_app_r by lia. rewrite Hlen, Nat.add_sub_swap, Nat.sub_diag by lia.
    rewrite Nat.add_0_l, build_query_tasks_lookup, Hj. cbn.
    split; [reflexivity|]. repeat split.
Qed.

(** X10: [BuildTasks] fails exactly when some structure check has a type
    outside the four known ones; the error is then the one of the first
    such check (its name and [unknown structure check type: <type>]).
    Query templates never make it fail. *)
Theorem BuildTasks_error visit cfg name err :
  BuildTasks visit cfg = inr (name, err) <->
  exists i sc, cfg.(StructureChecks) !! i = Some sc /\
    ~ In sc.(StructureCheck.Type_) structure_check_types /\
    (forall k sc', (k < i)%nat -> cfg.(StructureChecks) !! k = Some sc' ->
       In sc'.(StructureCheck.Type_) structure_check_types) /\
    name = sc.(StructureCheck.Name) /\
    err = ErrText (String.append "unknown structure check type: " sc.(StructureCheck.Type_)).
Proof.
  rewrite <- (build_structure_tasks_err cfg.(ClickHouse_).(Config.Database)
               cfg.(ClickHouse_).(Config.TableName) _ 1).
  unfold BuildTasks. cbv zeta.
  destruct (build_structure_tasks _ _ _ 1); split; congruence.
Qed.

(* ------------------------------------------------------------------ *)
(** ** Template lookup and parameter substitution *)

Lemma find_first {A} (f : A -> bool) (l : list A) :
  match List.find f l with
  | Some x => exists i, l !! i = Some x /\ f x = true /\
                (forall k y, (k < i)%nat -> l !! k = Some y -> f y = false)
  | None => forall y, In y l -> f y = false
  end.
Proof.
  induction l as [|a l IH]; cbn; [done|].
  destruct (f a) eqn:Ha.
  - exists 0%nat. split; [done|]. split; [done|]. intros k y Hk. lia.
  - destruct (List.find f l) as [x|].
    + destruct IH as (i & Hi & Hx & Hb). exists (S i). split; [done|]. split; [done|].
      intros [|k] y Hk Hy; cbn in Hy; [by injection Hy as <-|].
      apply (Hb k); [lia|done].
    + intros y [<-|Hy]; [done|]. by apply IH.
Qed.

(** X11: [StressQueryByName] uses the first template with the requested
    name (substituted without the time offset); when no template has that
    name it fails with that name. *)
Theorem StressQueryByName_first visit cfg name :
  let qts := cfg.(QueryTemplates) in
  match StressQueryByName visit cfg name with
  | inl q => exists i qt, qts !! i = Some qt /\ qt.(QueryTemplate.Name) = name /\
      (forall k qt', (k < i)%nat -> qts !! k = Some qt' -> qt'.(QueryTemplate.Name) <> name) /\
      q = SubstituteQueryParamsForStress visit qt.(QueryTemplate.Query)
            (String.append cfg.(ClickHouse_).(Config.Database)
               (String.append "." cfg.(ClickHouse_).(Config.TableName)))
            cfg.(TestParams_)
  | inr n => n = name /\ forall qt, In qt qts -> qt.(QueryTemplate.Name) <> name
  end.
Proof.
  cbv zeta. unfold StressQueryByName.
  pose proof (find_first (fun qt => String.eqb qt.(QueryTemplate.Name) name)
                cfg.(QueryTemplates)) as Hf.
  destruct (List.find _ _) as [qt|].
  - destruct Hf as (i & Hi & Hn & Hb). exists i, qt.
    split; [done|]. split; [by apply String.eqb_eq|]. split; [|done].
    intros k qt' Hk Hk'. apply String.eqb_neq. by apply (Hb k).
  - split; [done|]. intros qt Hqt. apply String.eqb_neq. by apply Hf.
Qed.

Lemma replace_all_no_dollar fuel s k v :
  Contains s "$" = false -> replace_all fuel s (String "$" k) v = s.
Proof.
  revert fuel. induction s as [|c s IH]; intros [|fuel] Hs; try done.
  cbn [replace_all]. cbn [Contains String.prefix] in Hs |- *.
  destruct (ascii_dec "$" c); [by rewrite prefix_empty in Hs|].
  cbn [orb] in Hs. by rewrite IH.
Qed.

Lemma repl_entries_keys fullTable p inc :
  Forall (fun kv => exists r, fst kv = String "$" r) (repl_entries fullTable p inc).
Proof.
  unfold repl_entries. destruct inc; repeat constructor; eexists; reflexivity.
Qed.

(** X12: a query with no [$] in it is returned unchanged by the
    parameter substitution, whatever the parameters and whatever order Go
    ranges over the replacement map in. *)
Theorem substituteQueryParams_no_placeholder visit query fullTable p inc :
  Contains query "$" = false ->
  substituteQueryParams visit query fullTable p inc = query.
Proof.
  intros Hq. unfold substituteQueryParams.
  pose proof (repl_entries_keys fullTable p inc) as Hk.
  remember (repl_entries fullTable p inc) as repl eqn:Hr. clear Hr.
  induction visit as [|i visit IH]; cbn [fold_left]; [done|].
  destruct (nth_error repl i) as [[k v]|] eqn:Hi; [|done].
  apply nth_error_In in Hi. rewrite List.Forall_forall in Hk.
  destruct (Hk _ Hi) as [r Hr]. cbn in Hr. subst k.
  unfold ReplaceAll. rewrite replace_all_no_dollar by done. exact IH.
Qed.

(* ------------------------------------------------------------------ *)
(** ** [Load]: validation and defaults *)

(** X13: after [yaml.Unmarshal], [Load] fails with the first of: no
    host, no database, neither structure checks nor query templates;
    otherwise the config it returns keeps host, database, checks,
    templates and parameters, has a non-zero port (9000 for a zero one),
    at least one worker (1 for a non-positive count) and a non-empty
    output path ([reports/report.html] for an empty one). *)
Theorem load_parsed_spec c :
  match load_parsed c with
  | inr e =>
      (c.(ClickHouse_).(Config.Host) = "" /\ e = ErrText "clickhouse.host is required") \/
      (c.(ClickHouse_).(Config.Host) <> "" /\ c.(ClickHouse_).(Config.Database) = "" /\
       e = ErrText "clickhouse.database is required") \/
      (c.(ClickHouse_).(Config.Host) <> "" /\ c.(ClickHouse_).(Config.Database) <> "" /\
       c.(StructureChecks) = [] /\ c.(QueryTemplates) = [] /\
       e = ErrText "at least one structure_checks or query_templates entry is required")
  | inl c' =>
      c'.(ClickHouse_).(Config.Host) = c.(ClickHouse_).(Config.Host) /\
      c'.(ClickHouse_).(Config.Host) <> "" /\
      c'.(ClickHouse_).(Config.Database) = c.(ClickHouse_).(Config.Database) /\
      c'.(ClickHouse_).(Config.Database) <> "" /\
      c'.(ClickHouse_).(Config.Port) =
        (if c.(ClickHouse_).(Config.Port) =? 0 then 9000 else c.(ClickHouse_).(Config.Port)) /\
      c'.(ClickHouse_).(Config.Port) <> 0 /\
      c'.(Execution_).(Config.Workers) =
        (if c.(Execution_).(Config.Workers) <=? 0 then 1 else c.(Execution_).(Config.Workers)) /\
      1 <= c'.(Execution_).(Config.Workers) /\
      c'.(Execution_).(Config.QueryTimeoutSec) = c.(Execution_).(Config.QueryTimeoutSec) /\
      c'.(Report_).(Config.OutputPath) <> "" /\
      (c.(Report_).(Config.OutputPath) <> "" ->
       c'.(Report_).(Config.OutputPath) = c.(Report_).(Config.OutputPath)) /\
      c'.(StructureChecks) = c.(StructureChecks) /\
      c'.(QueryTemplates) = c.(QueryTemplates) /\
      c'.(TestParams_) = c.(TestParams_) /\
      (c'.(StructureChecks) <> [] \/ c'.(QueryTemplates) <> [])
  end.
Proof.
  destruct c as [[host port db user pw tbl sec] tp [wk qts] [outp th] scs qs].
  unfold load_parsed, validate, setDefaults. cbn [ClickHouse_ Config.Host Config.Database].
  destruct (String.eqb_spec host "") as [Hh|Hh]; [by left|].
  destruct (String.eqb_spec db "") as [Hd|Hd]; [by right; left|].
  cbn -[Z.eqb].
  destruct (length scs =? 0)%nat eqn:Hs, (length qs =? 0)%nat eqn:Hq; cbn -[Z.eqb].
  - right; right. apply Nat.eqb_eq, length_zero_iff_nil in Hs, Hq. by subst.
  - destruct (port =? 0) eqn:Hp; cbn -[Z.leb];
      destruct (wk <=? 0) eqn:Hw; destruct (String.eqb_spec outp "") as [Ho|Ho];
      cbn; apply Nat.eqb_neq in Hq; rewrite ?Z.eqb_eq, ?Z.eqb_neq, ?Z.leb_le, ?Z.leb_gt in *;
      repeat split; try done; try lia; right; by destruct qs.
  - destruct (port =? 0) eqn:Hp; cbn -[Z.leb];
      destruct (wk <=? 0) eqn:Hw; destruct (String.eqb_spec outp "") as [Ho|Ho];
      cbn; apply Nat.eqb_neq in Hs; rewrite ?Z.eqb_eq, ?Z.eqb_neq, ?Z.leb_le, ?Z.leb_gt in *;
      repeat split; try done; try lia; left; by destruct scs.
  - destruct (port =? 0) eqn:Hp; cbn -[Z.leb];
      destruct (wk <=? 0) eqn:Hw; destruct (String.eqb_spec outp "") as [Ho|Ho];
      cbn; apply Nat.eqb_neq in Hs; rewrite ?Z.eqb_eq, ?Z.eqb_neq, ?Z.leb_le, ?Z.leb_gt in *;
      repeat split; try done; try lia; left; by destruct scs.
Qed.

(* ------------------------------------------------------------------ *)
(** ** The JSON report path *)

Lemma string_append_cons c (x y : string) :
  String.append (String c x) y = String c (String.append x y).
Proof. reflexivity. Qed.

Lemma length_string_append (a b : string) :
  String.length (String.append a b) = (String.length a + String.length b)%nat.
Proof.
  induction a as [|c a IH]; [done|]. rewrite string_append_cons. simpl. by rewrite IH.
Qed.

Lemma substring_append_r (a b : string) n :
  substring (String.length a) n (String.append a b) = substring 0 n b.
Proof. induction a as [|c a IH]; [done|]. rewrite string_append_cons. exact IH. Qed.

Lemma substring_split (s : string) n :
  (n <= String.length s)%nat ->
  s = String.append (substring 0 n s) (substring n (String.length s - n) s).
Proof.
  revert n. induction s as [|c s IH]; intros [|n] Hn; simpl in Hn; try lia.
  - done.
  - simpl. by rewrite substring_0_length.
  - simpl. rewrite string_append_cons. f_equal. apply IH. lia.
Qed.

Lemma ToLower_length s : String.length (ToLower s) = String.length s.
Proof. induction s as [|c s IH]; simpl; [done|]. by rewrite IH. Qed.

Lemma ToLower_substring s i n :
  ToLower (substring i n s) = substring i n (ToLower s).
Proof.
  revert i n. induction s as [|c s IH]; intros [|i] [|n]; simpl; try done;
    try f_equal; apply IH.
Qed.

Lemma append_cancel_l (a b c : string) :
  String.append a b = String.append a c -> b = c.
Proof.
  induction a as [|x a IH]; [done|]. rewrite !string_append_cons.
  intros [= H]. by apply IH.
Qed.

Lemma HasSuffix_append (a b : string) : HasSuffix (String.append a b) b = true.
Proof.
  unfold HasSuffix. rewrite length_string_append.
  replace (String.length a + String.length b - String.length b)%nat
    with (String.length a) by lia.
  rewrite substring_append_r, substring_0_length, String.eqb_refl.
  apply andb_true_intro. split; [apply Nat.leb_le; lia|done].
Qed.

(** X14: the JSON report path ends in [.json] and is never the HTML
    report's path, so [--format both] never writes both reports to one
    file. *)
Theorem json_path_distinct outPath :
  json_path outPath <> outPath /\ HasSuffix (json_path outPath) ".json" = true.
Proof.
  unfold json_path. destruct (HasSuffix (ToLower outPath) ".html") eqn:H.
  - split; [|apply HasSuffix_append].
    unfold HasSuffix in H. apply andb_true_iff in H as [Hl Heq].
    apply String.eqb_eq in Heq. apply Nat.leb_le in Hl.
    rewrite ToLower_length in Hl, Heq. cbn [String.length] in Hl, Heq.
    rewrite <- ToLower_substring in Heq.
    pose proof (substring_split outPath (String.length outPath - 5) ltac:(lia)) as Hs.
    replace (String.length outPath - (String.length outPath - 5))%nat with 5%nat in Hs by lia.
    intros E.
    assert (E' : String.append (substring 0 (String.length outPath - 5) outPath) ".json" =
                 String.append (substring 0 (String.length outPath - 5) outPath)
                   (substring (String.length outPath - 5) 5 outPath))
      by (rewrite <- Hs; exact E).
    apply append_cancel_l in E'.
    rewrite <- E' in Heq. discriminate Heq.
  - split; [|apply HasSuffix_append].
    intros E. apply (f_equal String.length) in E.
    rewrite length_string_append in E. cbn [String.length] in E. lia.
Qed.

(* ------------------------------------------------------------------ *)
(** ** [/api/run] *)

Lemma idSet_lookup (ids : list Z) (m0 : gmap Z bool) k :
  fold_left (fun m id => <[id := true]> m) ids m0 !! k =
  if existsb (Z.eqb k) ids then Some true else m0 !! k.
Proof.
  revert m0. induction ids as [|id ids IH]; intros m0; cbn [fold_left existsb]; [done|].
  rewrite IH. destruct (existsb (Z.eqb k) ids); [by rewrite orb_true_r|].
  rewrite orb_false_r. destruct (Z.eqb_spec k id) as [->|Hne].
  - apply lookup_insert_eq.
  - by apply lookup_insert_ne.
Qed.

Lemma map_nth_seq {A B} (f : A -> B) (l : list A) d :
  map (fun i => f (nth i l d)) (seq 0 (length l)) = map f l.
Proof.
  apply list_eq. intros i. rewrite !list_lookup_fmap.
  destruct (l !! i) as [x|] eqn:Hi.
  - rewrite lookup_seq_lt by (by apply lookup_lt_Some in Hi). cbn.
    by rewrite (nth_lookup_Some l i d x Hi).
  - apply lookup_ge_None in Hi. by rewrite lookup_seq_ge.
Qed.

(** X15: with a non-empty [task_ids] the handler runs the configured
    tasks whose ID was requested, in config order and each once (repeated
    or unknown IDs in the request add nothing); with none it runs all of
    them. *)
Theorem select_tasks_spec taskList taskIDs :
  select_tasks taskList taskIDs =
  match taskIDs with
  | [] => taskList
  | _ => List.filter (fun t => existsb (Z.eqb t.(Task.ID)) taskIDs) taskList
  end.
Proof.
  unfold select_tasks. destruct taskIDs as [|id ids]; [done|].
  apply filter_ext. intros t. rewrite idSet_lookup, lookup_empty.
  by destruct (existsb _ _).
Qed.

(** X16: the [RunResult] of [/api/run] has one result per selected task,
    whose [TaskID]s are the selected tasks' IDs in config order, with
    [Total] their number and [Passed + Failed = Total] (all zero for an
    empty selection), whatever order the workers finish in. *)
Theorem api_run_results taskList taskIDs workers client queryTimeout elapsed sched :
  Permutation sched (seq 0 (length (select_tasks taskList taskIDs))) ->
  let r := api_run taskList taskIDs workers client queryTimeout elapsed sched in
  map TestResult.TaskID r.(Results) = map Task.ID (select_tasks taskList taskIDs) /\
  r.(Total) = Z.of_nat (length (select_tasks taskList taskIDs)) /\
  r.(Passed) + r.(Failed) = r.(Total).
Proof.
  intros Hp r. subst r. unfold api_run.
  destruct (select_tasks taskList taskIDs) as [|t0 ts] eqn:Hsel; [done|].
  rewrite <- Hsel in *. rewrite Run_shape; [|by rewrite Hsel|done].
  cbn [Results Total Passed Failed].
  rewrite map_map.
  rewrite (map_ext _ (fun i => Task.ID (nth i (select_tasks taskList taskIDs) Task_zero)))
    by (intros i; apply runOne_TaskID).
  split; [apply map_nth_seq|]. split; [done|].
  rewrite count_pass_split, length_map. by rewrite (Permutation_length Hp), length_seq.
Qed.

(* ------------------------------------------------------------------ *)
(** ** More of [RunStress] *)

Lemma fold_receive_samples stream acc :
  (length acc.(errorSamples) <= 5)%nat ->
  (fold_left receive stream acc).(errorSamples) =
  firstn 5 (app acc.(errorSamples) (failure_messages stream)).
Proof.
  unfold failure_messages.
  revert acc. induction stream as [|[d err] stream IH]; intros acc Hle; cbn [fold_left].
  { cbn. rewrite app_nil_r. by rewrite firstn_all2. }
  destruct acc as [to su fa ca la es]. cbn [errorSamples] in *.
  destruct err as [e|]; cbn -[firstn Nat.ltb].
  - destruct (isContextCanceled e) eqn:Hc; cbn -[firstn Nat.ltb].
    + by apply IH.
    + destruct (Nat.ltb_spec (length es) 5) as [Hl|Hl].
      * rewrite IH; cbn [errorSamples].
        -- by rewrite <- app_assoc.
        -- rewrite length_app. cbn. lia.
      * rewrite IH by done. cbn [errorSamples].
        rewrite !firstn_app. replace (5 - length es)%nat with 0%nat by lia.
        by rewrite !firstn_0.
  - by apply IH.
Qed.

(** X17: [ErrorSamples] are the messages of the first five failed
    calls (cancelled calls never give a sample), in the order received. *)
Theorem stress_error_samples stream :
  (stress_result stream).(ErrorSamples) = firstn 5 (failure_messages stream).
Proof.
  unfold stress_result. cbv zeta.
  rewrite (fold_receive_samples stream stress_acc0) by (cbn; lia).
  destruct (0 <? _)%nat; reflexivity.
Qed.

Lemma stress_result_ranks stream :
  let lat := success_latencies stream in
  let n := Z.of_nat (length lat) in
  let at_rank p := nth (Z.to_nat (Z.min (n * p / 100) (n - 1))) (sort_Float64s lat) 0 in
  lat <> [] ->
  (stress_result stream).(LatencyP50Ms) = at_rank 50 /\
  (stress_result stream).(LatencyP95Ms) = at_rank 95 /\
  (stress_result stream).(LatencyP99Ms) = at_rank 99.
Proof.
  cbv zeta. intros Hne.
  destruct (sort_Float64s_spec (success_latencies stream)) as [Hs Hp].
  unfold stress_result. cbv zeta.
  destruct (fold_receive stream stress_acc0) as (_ & _ & _ & _ & Hl).
  rewrite Hl. cbn [latencies stress_acc0]. rewrite app_nil_l.
  remember (success_latencies stream) as lat eqn:Hlat. clear Hlat.
  pose proof (Permutation_length Hp) as Hlen.
  set (srt := sort_Float64s lat) in *. clearbody srt.
  assert (Hne' : srt <> []) by (intros ->; destruct lat; [done|discriminate Hlen]).
  rewrite <- Hlen.
  replace (0 <? length srt)%nat with true by (destruct srt; [done|reflexivity]).
  cbn [LatencyP50Ms LatencyP95Ms LatencyP99Ms].
  rewrite !percentile_rank by done. repeat split.
Qed.

Lemma sorted_nth_mono (l : list Z) i j :
  Sorted Z.le l -> (i <= j)%nat -> (j < length l)%nat -> nth i l 0 <= nth j l 0.
Proof.
  intros Hs. apply Sorted_StronglySorted in Hs; [|intros x y z; lia].
  revert i j. induction Hs as [|a l Hs IH Hall]; intros i j Hij Hj; cbn in Hj; [lia|].
  destruct i as [|i], j as [|j]; cbn; try lia.
  - rewrite List.Forall_forall in Hall. apply Hall, nth_In. lia.
  - apply IH; lia.
Qed.

(** X18: the reported percentiles are ordered, [P50 <= P95 <= P99], and
    when a call succeeded each of them is the latency of a successful
    call. *)
Theorem stress_percentiles_ordered stream :
  let r := stress_result stream in
  r.(LatencyP50Ms) <= r.(LatencyP95Ms) <= r.(LatencyP99Ms) /\
  (success_latencies stream <> [] ->
   In r.(LatencyP50Ms) (success_latencies stream) /\
   In r.(LatencyP95Ms) (success_latencies stream) /\
   In r.(LatencyP99Ms) (success_latencies stream)).
Proof.
  cbv zeta.
  destruct (success_latencies stream) as [|x l] eqn:Hlat.
  - unfold stress_result. cbv zeta.
    destruct (fold_receive stream stress_acc0) as (_ & _ & _ & _ & Hl).
    rewrite Hl, Hlat. cbn. split; [lia|done].
  - assert (Hne : success_latencies stream <> []) by (by rewrite Hlat).
    destruct (stress_result_ranks stream Hne) as (H50 & H95 & H99).
    rewrite H50, H95, H99, Hlat.
    destruct (sort_Float64s_spec (x :: l)) as [Hs Hp].
    pose proof (Permutation_length Hp) as Hlen.
    set (n := Z.of_nat (length (x :: l))).
    assert (Hn : 1 <= n) by (subst n; cbn [length]; lia).
    assert (Hidx : forall p, 0 <= p -> (Z.to_nat (Z.min (n * p / 100) (n - 1)) <
                                         length (sort_Float64s (x :: l)))%nat).
    { intros p Hp0. rewrite Hlen.
      assert (0 <= n * p / 100) by (apply Z.div_pos; lia). subst n. lia. }
    assert (Hmono : forall p q, 0 <= p <= q ->
      (Z.to_nat (Z.min (n * p / 100) (n - 1)) <= Z.to_nat (Z.min (n * q / 100) (n - 1)))%nat).
    { intros p q Hpq. assert (n * p / 100 <= n * q / 100)
        by (apply Z.div_le_mono; [lia|apply Z.mul_le_mono_nonneg_l; lia]).
      assert (0 <= n * p / 100) by (apply Z.div_pos; lia). lia. }
    split.
    + split; apply sorted_nth_mono; try done; try (apply Hmono; lia); apply Hidx; lia.
    + intros _. split; [|split]; apply (Permutation_in _ Hp), nth_In, Hidx; lia.
Qed.

Lemma Contains_cons c (s sub : string) :
  Contains s sub = true -> Contains (String c s) sub = true.
Proof.
  intros H. assert (Contains (String c s) sub = String.prefix sub (String c s) || Contains s sub)
    as -> by reflexivity.
  by rewrite H, orb_true_r.
Qed.

Lemma Contains_append_r' (a s sub : string) :
  Contains s sub = true -> Contains (String.append a s) sub = true.
Proof.
  intros H. induction a as [|c a IH]; [done|].
  rewrite string_append_cons. by apply Contains_cons.
Qed.

(** [strings.ReplaceAll] leaves [new] in a text where [old] occurred. *)
Lemma replace_all_contains_new fuel s old new :
  old <> "" -> (String.length s < fuel)%nat -> Contains s old = true ->
  Contains (replace_all fuel s old new) new = true.
Proof.
  intros Hold. revert fuel. induction s as [|c s IH]; intros [|fuel] Hf Hs;
    cbn [String.length] in Hf; try lia.
  - destruct old; [done|]. discriminate Hs.
  - cbn [replace_all]. destruct (String.prefix old (String c s)) eqn:Hp.
    + apply Contains_app_l.
    + apply Contains_cons. apply IH; [lia|].
      assert (Contains (String c s) old = String.prefix old (String c s) || Contains s old)
        as Hc by reflexivity.
      by rewrite Hc, Hp in Hs.
Qed.

Lemma stress_base_has_placeholder b :
  Contains (stress_base b) timeOffsetPlaceholder = true.
Proof.
  unfold stress_base. destruct (Contains b timeOffsetPlaceholder) eqn:H; [done|].
  apply Contains_append_r'. reflexivity.
Qed.

(** X20: every query a stress worker sends carries the decimal text of
    the offset it drew, whether or not the template had the placeholder
    (one without it gets [ -- no $time_offset_ms$] appended first). *)
Theorem stress_query_has_offset baseQuery workers st :
  stress_reach baseQuery workers st ->
  forall j e, st.(issued) !! j = Some e ->
  Contains (query_of e) (FormatUint (offset_of e)) = true.
Proof.
  intros Hr j e Hj.
  destruct (stress_draw_offsets _ _ _ Hr) as [_ Hoff].
  destruct (Hoff j e Hj) as [_ ->].
  unfold ReplaceAll. apply replace_all_contains_new; [discriminate|lia|].
  apply stress_base_has_placeholder.
Qed.

(* ------------------------------------------------------------------ *)
(** ** [ExtractGranules] on positive counts *)

Lemma match_at_length s m rest : match_at s = Some (m, rest) -> length m = 3%nat.
Proof. unfold match_at. repeat case_match; intros Hm; simplify_eq; reflexivity. Qed.

Lemma find_all_length fuel s m : In m (find_all fuel s) -> length m = 3%nat.
Proof.
  revert s. induction fuel as [|fuel IH]; intros s; cbn; [done|].
  destruct s as [|c s']; [done|].
  destruct (match_at (String c s')) as [[m' rest]|] eqn:Hm.
  - intros [<-|Hin]; [by apply match_at_length in Hm|]. by apply (IH rest).
  - apply IH.
Qed.

Lemma fold_min_spec (xs : list Z) a :
  (forall y, In y (a :: xs) -> fold_left Z.min xs a <= y) /\
  In (fold_left Z.min xs a) (a :: xs).
Proof.
  revert a. induction xs as [|x xs IH]; intros a; cbn [fold_left].
  { split; [intros y [<-|[]]; lia|by left]. }
  destruct (IH (Z.min a x)) as [Hle Hin]. split.
  - intros y [Hy|[Hy|Hy]].
    + specialize (Hle (Z.min a x) (or_introl eq_refl)). lia.
    + specialize (Hle (Z.min a x) (or_introl eq_refl)). lia.
    + by apply Hle; right.
  - destruct Hin as [Hm|Hin]; [|by right; right].
    rewrite <- Hm. destruct (Z.min_spec a x) as [[_ ->]|[_ ->]]; [by left|by right; left].
Qed.

(** X19: when every match's first count parses to a positive number,
    [ExtractGranules] is the smallest of them (0 when there is no match):
    the zero-start rule only misbehaves on a zero count. *)
Theorem ExtractGranules_min explainText :
  (forall m, In m (FindAllStringSubmatch explainText) ->
     exists x, Sscanf_d (nth 1 m "") = Some x /\ 0 < x) ->
  let xs := granule_values explainText in
  (xs = [] -> ExtractGranules explainText = 0) /\
  (forall x, In x xs -> ExtractGranules explainText <= x) /\
  (xs <> [] -> In (ExtractGranules explainText) xs).
Proof.
  intros Hpos xs. unfold xs, granule_values, ExtractGranules.
  assert (Hlen : forall m, In m (FindAllStringSubmatch explainText) -> length m = 3%nat)
    by (intros m; apply find_all_length).
  destruct (FindAllStringSubmatch explainText) as [|m0 ms] eqn:Hms; [done|].
  (* after the first match, [minVal] is positive and each step takes the minimum *)
  set (val := fun m : list string =>
                match Sscanf_d (nth 1 m "") with Some x => x | None => 0 end).
  assert (Hstep : forall ms' v, 0 < v -> (forall m, In m ms' -> In m (m0 :: ms)) ->
    fold_left (fun (minVal : Z) (m : list string) =>
       if (length m <? 2)%nat then minVal
       else match Sscanf_d (nth 1 m "") with
            | Some x => if (minVal =? 0) || (x <? minVal) then x else minVal
            | None => minVal
            end) ms' v = fold_left Z.min (map val ms') v).
  { induction ms' as [|m ms' IH]; intros v Hv Hsub; [done|]. cbn [fold_left map].
    destruct (Hpos m (Hsub m (or_introl eq_refl))) as (x & Hx & Hx0).
    rewrite (Hlen m (Hsub m (or_introl eq_refl))). cbn [Nat.ltb Nat.leb].
    unfold val at 2. rewrite Hx.
    rewrite (proj2 (Z.eqb_neq v 0)) by lia. cbn [orb].
    replace (if x <? v then x else v) with (Z.min v x)
      by (destruct (Z.ltb_spec x v); lia).
    apply IH; [lia|]. intros m' Hm'. apply Hsub. by right. }
  destruct (Hpos m0 (or_introl eq_refl)) as (x0 & Hx0 & Hx00).
  cbn [fold_left map]. rewrite (Hlen m0 (or_introl eq_refl)). cbn [Nat.ltb Nat.leb].
  rewrite Hx0. cbn [Z.eqb orb].
  rewrite Hstep by (try done; intros m Hm; by right).
  assert (val m0 = x0) as Hv0 by (unfold val; by rewrite Hx0).
  rewrite Hv0. destruct (fold_min_spec (map val ms) x0) as [Hle Hin].
  split; [done|]. split; [exact Hle|]. intros _. exact Hin.
Qed.

(* ------------------------------------------------------------------ *)
(** ** Witnesses of the properties above *)

Lemma rowStatus_thresholds_off_witness :
  rowStatus sample_result (sample_meta 0 0 0) = "ok".
Proof.
  rewrite (rowStatus_thresholds_off sample_result (sample_meta 0 0 0));
    [vm_compute; reflexivity|cbn; lia..].
Defined.

Lemma rowStatus_granules_monotone_witness :
  status_rank (rowStatus sample_result (sample_meta 100 1000 5000)) <=
  status_rank (rowStatus (TestResult.set_Granules 150 sample_result) (sample_meta 100 1000 5000)).
Proof.
  apply rowStatus_granules_monotone.
  assert (H : TestResult.Granules sample_result = 3) by (vm_compute; reflexivity).
  rewrite H. lia.
Defined.

Lemma rowStatus_ReadRows_wrap_witness :
  rowStatus (TestResult.set_ReadRows (2 ^ 63) sample_result) (sample_meta 0 0 5000) =
  rowStatus (TestResult.set_ReadRows (2 ^ 63) sample_result)
    (without_ReadRowsWarn (sample_meta 0 0 5000)).
Proof. apply rowStatus_ReadRows_wrap. cbn [TestResult.set_ReadRows TestResult.ReadRows]. lia. Defined.

Lemma report_fail_rows_Run_witness :
  let r := Run sample_tasks 2 (fun _ => query_err_client) 0 (fun _ => 7) [1%nat; 0%nat] in
  r.(Failed) <= count_status "fail" (row_statuses "now" r (Some (sample_meta 0 2 0))).
Proof.
  assert (Hp : Permutation [1%nat; 0%nat] (seq 0 (length sample_tasks)))
    by (simpl; apply perm_swap).
  exact (proj1 (report_fail_rows_Run "now" (Some (sample_meta 0 2 0)) sample_tasks 2
                  (fun _ => query_err_client) 0 (fun _ => 7) _ Hp)).
Defined.

Lemma BuildTasks_ok_witness :
  BuildTasks sample_visit sample_config = inl sample_built /\
  length sample_built = 2%nat.
Proof.
  assert (H : BuildTasks sample_visit sample_config = inl sample_built)
    by (vm_compute; reflexivity).
  split; [exact H|].
  exact (proj1 (BuildTasks_ok sample_visit sample_config sample_built H)).
Defined.

Lemma substituteQueryParams_no_placeholder_witness :
  Contains "SELECT 1" "$" = false /\
  SubstituteQueryParams sample_visit "SELECT 1" "logs_db.app_logs" sample_params = "SELECT 1".
Proof.
  assert (H : Contains "SELECT 1" "$" = false) by reflexivity.
  split; [exact H|]. exact (substituteQueryParams_no_placeholder _ _ _ _ true H).
Defined.

Lemma api_run_results_witness :
  let r := api_run sample_tasks [2; 2; 7] 2 (fun _ => ok_client) 0 (fun _ => 7) [0%nat] in
  map TestResult.TaskID r.(Results) = [2].
Proof.
  assert (Hp : Permutation [0%nat] (seq 0 (length (select_tasks sample_tasks [2; 2; 7]))))
    by (vm_compute; apply Permutation_refl).
  exact (proj1 (api_run_results sample_tasks [2; 2; 7] 2 (fun _ => ok_client) 0
                  (fun _ => 7) _ Hp)).
Defined.

Lemma ExtractGranules_min_witness :
  (forall x, In x (granule_values two_granules_explain) ->
     ExtractGranules two_granules_explain <= x) /\
  granule_values two_granules_explain = [40; 12].
Proof.
  assert (H : forall m, In m (FindAllStringSubmatch two_granules_explain) ->
     exists x, Sscanf_d (nth 1 m "") = Some x /\ 0 < x).
  { intros m Hm. vm_compute in Hm. destruct Hm as [<-|[<-|[]]];
      [exists 40|exists 12]; (split; [vm_compute; reflexivity|lia]). }
  split; [exact (proj1 (proj2 (ExtractGranules_min two_granules_explain H)))|].
  vm_compute. reflexivity.
Defined.

Lemma stress_query_has_offset_witness :
  (draws stress_template 2).(issued) !! 1%nat =
    Some (0%nat, 2, "SELECT count() WHERE ts < now() - 2") /\
  Contains "SELECT count() WHERE ts < now() - 2" (FormatUint 2) = true.
Proof.
  assert (H : (draws stress_template 2).(issued) !! 1%nat =
                Some (0%nat, 2, "SELECT count() WHERE ts < now() - 2"))
    by (vm_compute; reflexivity).
  split; [exact H|].
  exact (stress_query_has_offset stress_template 1 _ (draws_reach stress_template 2) _ _ H).
Defined.
